(** * Shapely: the daily geography guessing game

    A shallow embedding of the game logic of [utils.ts] and [App.tsx]
    (with the data model of [types.ts]): the day index, the daily and
    the random puzzle selection, the round state update of
    [handleGuess] and the share text of [generateShareGrid].

    Conventions of the embedding.
    - A JavaScript string is a [string] (the UTF-8 bytes of its text);
      string equality [===] is [String.eqb].  [toLowerCase] is a
      parameter of the development, any function on texts.
    - A JavaScript number that the code only uses as an integer (array
      lengths and indices, millisecond time values, the day number) is
      a [Z]; the value of [Math.random()] is a rational [Q].
    - [undefined] as a result is [None].
    - React state ([useState]) is a record; an event handler is a
      function from the record to the record after its [set...] calls. *)

From Stdlib Require Import ZArith List Bool Lia String Ascii.
From Stdlib Require Import QArith Qround.
From Stdlib Require Import DecimalString.
Import ListNotations.

Local Open Scope string_scope.
Local Open Scope list_scope.
Local Open Scope Z_scope.

(** ** Data model ([types.ts]) *)

Inductive Continent : Type :=
| Africa | Americas | Asia | Europe | Oceania | All.

Inductive Difficulty : Type :=
| Easy | Normal | Hard.

Inductive CountryType : Type :=
| Sovereign | Territory.

Record Country : Type := mkCountry {
  name : string;
  code : string;
  capital : string;
  lat : Q;
  lng : Q;
  continent : Continent;
  difficulty : Difficulty;
  type : CountryType
}.

Record GameState : Type := mkGameState {
  date : string;
  guesses : list string;
  isFinished : bool;
  won : bool
}.

(** [Difficulty | 'Mixed'] and [CountryType | 'All'] of [GameFilter]. *)
Inductive DifficultyFilter : Type :=
| Mixed
| OnlyDifficulty (d : Difficulty).

Inductive TypeFilter : Type :=
| AllTypes
| OnlyType (t : CountryType).

Module GameFilter.
Record t : Type := mk {
  continent : Continent;
  difficulty : DifficultyFilter;
  type : TypeFilter
}.
End GameFilter.

(** Strict equality [===] on the three enumerations. *)
Definition Continent_eqb (a b : Continent) : bool :=
  match a, b with
  | Africa, Africa | Americas, Americas | Asia, Asia
  | Europe, Europe | Oceania, Oceania | All, All => true
  | _, _ => false
  end.

Definition Difficulty_eqb (a b : Difficulty) : bool :=
  match a, b with
  | Easy, Easy | Normal, Normal | Hard, Hard => true
  | _, _ => false
  end.

Definition CountryType_eqb (a b : CountryType) : bool :=
  match a, b with
  | Sovereign, Sovereign | Territory, Territory => true
  | _, _ => false
  end.

(** ** JavaScript primitives used by the code *)

(** What [String.prototype.toLowerCase] does to a text of Basic Latin
    characters (bytes below 128): a letter in ["A".."Z"] moves to
    ["a".."z"], every other character stays. *)
Definition lowerAscii (c : ascii) : ascii :=
  let n := nat_of_ascii c in
  if (andb (Nat.leb 65 n) (Nat.leb n 90)) then ascii_of_nat (n + 32) else c.

Fixpoint toLowerCaseAscii (s : string) : string :=
  match s with
  | EmptyString => EmptyString
  | String c s' => String (lowerAscii c) (toLowerCaseAscii s')
  end.

(** A text of Basic Latin characters only. *)
Fixpoint isAscii (s : string) : bool :=
  match s with
  | EmptyString => true
  | String c s' => Nat.ltb (nat_of_ascii c) 128 && isAscii s'
  end.

(** A lower-casing function treats Basic Latin texts as ECMAScript's
    [toLowerCase] does. *)
Definition foldsBasicLatin (lower : string -> string) : Prop :=
  forall s : string, isAscii s = true -> lower s = toLowerCaseAscii s.

(** Two characters that are equal or the two cases of one letter, and
    two texts that are equal up to the case of their letters. *)
Definition sameLetter (a b : ascii) : bool :=
  let m := nat_of_ascii a in
  let n := nat_of_ascii b in
  Nat.eqb m n
  || (Nat.leb 65 m && Nat.leb m 90 && Nat.eqb n (m + 32))
  || (Nat.leb 65 n && Nat.leb n 90 && Nat.eqb m (n + 32)).

Fixpoint sameIgnoringCase (s t : string) : bool :=
  match s, t with
  | EmptyString, EmptyString => true
  | String a s', String b t' => sameLetter a b && sameIgnoringCase s' t'
  | _, _ => false
  end.

(** [arr[i]] for a number [i]: [undefined] outside the array. *)
Definition arrayGet {A : Type} (arr : list A) (i : Z) : option A :=
  if i <? 0 then None else nth_error arr (Z.to_nat i).

(** [arr.length] *)
Definition arrayLength {A : Type} (arr : list A) : Z :=
  Z.of_nat (List.length arr).

(** [`${n}`] for an integer [n]. *)
Definition numberToString (n : Z) : string :=
  NilZero.string_of_int (Z.to_int n).

(** Modelled from the spec: the constant [MAX_GUESSES] of [constants.ts],
    which is not among the sources; the spec fixes the maximum attempt
    count at 6 (and [generateShareGrid] prints [/6]). *)
Definition MAX_GUESSES : Z := 6.

Section Shapely.

(** [String.prototype.toLowerCase].  Its case mapping covers all of
    Unicode and is not spelled out here: the development holds for
    every function on texts, and a property that depends on what
    lower-casing does to a text asks for [foldsBasicLatin]. *)
Variable toLowerCase : string -> string.

(** ** The round state update ([App.tsx]) *)

(** The part of the component state that [handleGuess] reads or writes,
    for a component on screen: its daily country is a country (were
    [getDailyCountry()] [undefined], the first render would throw at
    [activeCountry.code] and no handler would ever run). *)
Record App : Type := mkApp {
  isInfiniteMode : bool;
  dailyCountry : Country;
  dailyState : GameState;
  infiniteCountry : option Country;
  infiniteState : GameState
}.

Definition activeState (app : App) : GameState :=
  if isInfiniteMode app then infiniteState app else dailyState app.

(** [isInfiniteMode ? (infiniteCountry || dailyCountry) : dailyCountry] *)
Definition activeCountry (app : App) : Country :=
  if isInfiniteMode app then
    match infiniteCountry app with
    | Some c => c
    | None => dailyCountry app
    end
  else dailyCountry app.

Definition setInfiniteState (app : App) (s : GameState) : App :=
  mkApp (isInfiniteMode app) (dailyCountry app) (dailyState app)
        (infiniteCountry app) s.

Definition setDailyState (app : App) (s : GameState) : App :=
  mkApp (isInfiniteMode app) (dailyCountry app) s
        (infiniteCountry app) (infiniteState app).

(** The object literal [newState] of [handleGuess]. *)
Definition newState (st : GameState) (target : Country) (countryName : string)
  : GameState :=
  let isCorrect := (toLowerCase countryName =? toLowerCase (name target))%string in
  let newGuesses := guesses st ++ [countryName] in
  let isGameOver := isCorrect || (MAX_GUESSES <=? arrayLength newGuesses) in
  mkGameState (date st) newGuesses isGameOver isCorrect.

Definition handleGuess (app : App) (countryName : string) : App :=
  if isFinished (activeState app) then app
  else
    let newState := newState (activeState app) (activeCountry app) countryName in
    if isInfiniteMode app then setInfiniteState app newState
    else setDailyState app newState.

(** The state of a fresh round, as [useState], [checkDayChange] and
    [startInfiniteMode] build it. *)
Definition freshState (key : string) : GameState :=
  mkGameState key [] false false.

(** What [handleGuess] does to the active round state, for the name of
    the active country: nothing once the round is finished. *)
Definition submitGuess (st : GameState) (target : Country) (guessText : string)
  : GameState :=
  if isFinished st then st else newState st target guessText.

(** The round states that guesses lead to from a fresh round: each step
    is one call of [handleGuess] on a component whose active state is
    already reached, in either mode and for any active country. *)
Inductive reachable : GameState -> Prop :=
| reach_fresh (key : string) : reachable (freshState key)
| reach_guess (app : App) (countryName : string) :
    reachable (activeState app) ->
    reachable (activeState (handleGuess app countryName)).

(** ** The day index ([utils.ts]) *)

(** The date that [getLondonDateString] reads off the clock, as the
    year, month (1..12) and day of its [YYYY-MM-DD] text. *)
Record CalendarDate : Type := mkDate {
  year : Z;
  month : Z;
  day : Z
}.

Definition MS_PER_DAY : Z := 24 * 60 * 60 * 1000.

(** ECMAScript's day arithmetic, which [new Date('YYYY-MM-DD')] uses:
    a date-only text is the midnight that starts that day in UTC. *)
Definition DayFromYear (y : Z) : Z :=
  365 * (y - 1970) + (y - 1969) / 4 - (y - 1901) / 100 + (y - 1601) / 400.

Definition InLeapYear (y : Z) : bool :=
  (y mod 4 =? 0) && (negb (y mod 100 =? 0) || (y mod 400 =? 0)).

Definition DaysInMonth (y m : Z) : Z :=
  if m =? 2 then (if InLeapYear y then 29 else 28)
  else if (m =? 4) || (m =? 6) || (m =? 9) || (m =? 11) then 30
  else 31.

(** Days of the year before the first of month [m] (1..12). *)
Definition DaysBeforeMonth (y m : Z) : Z :=
  let leap := if InLeapYear y then 1 else 0 in
  if m <=? 1 then 0
  else if m =? 2 then 31
  else if m =? 3 then 59 + leap
  else if m =? 4 then 90 + leap
  else if m =? 5 then 120 + leap
  else if m =? 6 then 151 + leap
  else if m =? 7 then 181 + leap
  else if m =? 8 then 212 + leap
  else if m =? 9 then 243 + leap
  else if m =? 10 then 273 + leap
  else if m =? 11 then 304 + leap
  else 334 + leap.

Definition MakeDay (d : CalendarDate) : Z :=
  DayFromYear (year d) + DaysBeforeMonth (year d) (month d) + (day d - 1).

(** [new Date(text).getTime()] for the date-only text of [d]. *)
Definition getTime (d : CalendarDate) : Z :=
  MakeDay d * MS_PER_DAY.

Definition epoch : CalendarDate := mkDate 2024 1 1.

(** [getDayNumber], with the London date it reads as its argument. *)
Definition getDayNumber (londonDate : CalendarDate) : Z :=
  let start := getTime epoch in
  let current := getTime londonDate in
  let diffTime := Z.abs (current - start) in
  diffTime / MS_PER_DAY.

(** The dates of the calendar, and the day after a date. *)
Definition validDate (d : CalendarDate) : Prop :=
  1 <= month d <= 12 /\ 1 <= day d <= DaysInMonth (year d) (month d).

Definition nextDay (d : CalendarDate) : CalendarDate :=
  if day d <? DaysInMonth (year d) (month d) then
    mkDate (year d) (month d) (day d + 1)
  else if month d <? 12 then mkDate (year d) (month d + 1) 1
  else mkDate (year d + 1) 1 1.

(** [a] is the same day as [b] or an earlier one. *)
Definition dateLeb (a b : CalendarDate) : bool :=
  (year a <? year b)
  || ((year a =? year b)
      && ((month a <? month b)
          || ((month a =? month b) && (day a <=? day b)))).

(** ** Puzzle selection ([utils.ts]) *)

(** [a % b] on integers: [NaN] (here [None]) when [b] is zero, else the
    remainder with the sign of [a]. *)
Definition jsRem (a b : Z) : option Z :=
  if b =? 0 then None else Some (Z.rem a b).

(** [Math.floor(Math.random() * len)] for the value [r] of
    [Math.random()], with the product taken exactly (the code rounds it
    to a double before the floor). *)
Definition randomIndex (r : Q) (len : Z) : Z :=
  Qfloor (r * inject_Z len).

(** [if (excludeCode)]: [undefined] and the empty string are falsy. *)
Definition truthy (excludeCode : option string) : bool :=
  match excludeCode with
  | None => false
  | Some s => negb (s =? "")%string
  end.

(** [c.code !== excludeCode] *)
Definition codeDiffers (excludeCode : option string) (c : Country) : bool :=
  match excludeCode with
  | None => true
  | Some s => negb (code c =? s)%string
  end.

Section Selection.

(** The reference list [COUNTRIES] of [constants.ts] is not among the
    sources: the selection functions take it as a parameter. *)
Variable COUNTRIES : list Country.

Definition sovereignPool : list Country :=
  filter (fun c => CountryType_eqb (type c) Sovereign) COUNTRIES.

(** The body of [getDailyCountry] after [dayNumber] is read. *)
Definition dailyCountryOn (dayNumber : Z) : option Country :=
  match jsRem dayNumber (arrayLength sovereignPool) with
  | None => None
  | Some index => arrayGet sovereignPool index
  end.

Definition getDailyCountry (londonDate : CalendarDate) : option Country :=
  let dayNumber := getDayNumber londonDate in
  dailyCountryOn dayNumber.

(** The value of [pool] in [getRandomCountryFiltered] when it reaches
    the test [pool.length === 0]. *)
Definition filteredPool (f : GameFilter.t) (excludeCode : option string)
  : list Country :=
  let pool := COUNTRIES in
  let pool :=
    if negb (Continent_eqb (GameFilter.continent f) All)
    then filter (fun c => Continent_eqb (continent c) (GameFilter.continent f)) pool
    else pool in
  let pool :=
    match GameFilter.difficulty f with
    | Mixed => pool
    | OnlyDifficulty d => filter (fun c => Difficulty_eqb (difficulty c) d) pool
    end in
  let pool :=
    match GameFilter.type f with
    | AllTypes => pool
    | OnlyType t => filter (fun c => CountryType_eqb (type c) t) pool
    end in
  let pool :=
    if truthy excludeCode then filter (codeDiffers excludeCode) pool
    else pool in
  pool.

(** [getRandomCountryFiltered], with the value [r] that its one call
    of [Math.random()] returns as an argument. *)
Definition getRandomCountryFiltered (r : Q) (f : GameFilter.t)
           (excludeCode : option string) : option Country :=
  let pool := filteredPool f excludeCode in
  if arrayLength pool =? 0 then
    arrayGet COUNTRIES (randomIndex r (arrayLength COUNTRIES))
  else
    arrayGet pool (randomIndex r (arrayLength pool)).

End Selection.

(** ** The compass arrow ([utils.ts]) *)

(** The chain of comparisons that ends [getDirectionArrow], for a
    bearing [brng] that is a number ([Some], every finite double being a
    rational) or [NaN] ([None], on which each comparison is false).
    The bearing itself comes out of [Math.sin], [Math.cos] and
    [Math.atan2] on doubles and is not modelled. *)
Definition geqNumber (brng : option Q) (bound : Q) : bool :=
  match brng with
  | Some q => Qle_bool bound q
  | None => false
  end.

Definition ltNumber (brng : option Q) (bound : Q) : bool :=
  match brng with
  | Some q => negb (Qle_bool bound q)
  | None => false
  end.

Definition arrowOfBearing (brng : option Q) : string :=
  if geqNumber brng (675 # 2) || ltNumber brng (45 # 2) then "⬆️"
  else if geqNumber brng (45 # 2) && ltNumber brng (135 # 2) then "↗️"
  else if geqNumber brng (135 # 2) && ltNumber brng (225 # 2) then "➡️"
  else if geqNumber brng (225 # 2) && ltNumber brng (315 # 2) then "↘️"
  else if geqNumber brng (315 # 2) && ltNumber brng (405 # 2) then "⬇️"
  else if geqNumber brng (405 # 2) && ltNumber brng (495 # 2) then "↙️"
  else if geqNumber brng (495 # 2) && ltNumber brng (585 # 2) then "⬅️"
  else if geqNumber brng (585 # 2) && ltNumber brng (675 # 2) then "↖️"
  else "⬆️".

Definition compassArrows : list string :=
  ["⬆️"; "↗️"; "➡️"; "↘️"; "⬇️"; "↙️"; "⬅️"; "↖️"].

(** ** The share text ([utils.ts]) *)

Definition nl : string := String (ascii_of_nat 10) EmptyString.

Definition successMarker : string := "🟩🟩🟩🟩🟩".
Definition failureMarker : string := "🟥🟥🟥🟥🟥".

Definition footer : string :=
  (nl ++ "Come play this game too! 🗺️⚡🚀" ++ nl
      ++ "https://geoshapely.netlify.app/")%string.

(** The callback of [guesses.forEach]: [message += ...]. *)
Definition appendGuessLine (correctCountry : string) (message guess : string)
  : string :=
  if (toLowerCase guess =? toLowerCase correctCountry)%string
  then (message ++ successMarker ++ nl)%string
  else (message ++ failureMarker ++ nl)%string.

(** The first template of [generateShareGrid]: the title and its line end. *)
Definition titleLine (dayNumber : Z) (isInfinite : bool) : string :=
  if isInfinite then ("🌍 Shapely (Infinite Mode) 📍" ++ nl)%string
  else ("🌍 Shapely No. " ++ numberToString dayNumber ++ " 📍" ++ nl)%string.

(** The second template: the outcome, its line end and an empty line. *)
Definition outcomeLine (count : string) (isWin : bool) : string :=
  if isWin then
    ("Wow! 🌈 I guessed the right country in " ++ count
       ++ "/6 tries! 🏆✨" ++ nl ++ nl)%string
  else
    ("Ouch! 😅 Today's shape was a real mystery! X/6 💨☁️" ++ nl ++ nl)%string.

(** The body of [generateShareGrid] after [dayNumber] is read. *)
Definition shareGridOn (dayNumber : Z) (guesses : list string)
           (correctCountry : string) (isWin isInfinite : bool) : string :=
  let count := if isWin then numberToString (arrayLength guesses) else "X" in
  let message := titleLine dayNumber isInfinite in
  let message := (message ++ outcomeLine count isWin)%string in
  let message := fold_left (appendGuessLine correctCountry) guesses message in
  (message ++ footer)%string.

Definition generateShareGrid (londonDate : CalendarDate) (guesses : list string)
           (correctCountry : string) (isWin isInfinite : bool) : string :=
  let dayNumber := getDayNumber londonDate in
  shareGridOn dayNumber guesses correctCountry isWin isInfinite.

(** ** Reading a share text *)

(** The line that one guess adds, and the lines of a text. *)
Definition guessLine (correctCountry guess : string) : string :=
  appendGuessLine correctCountry "" guess.

Fixpoint joinAll (parts : list string) : string :=
  match parts with
  | [] => ""
  | p :: rest => (p ++ joinAll rest)%string
  end.

Definition isNewline (c : ascii) : bool :=
  Nat.eqb (nat_of_ascii c) 10.

Fixpoint splitLines (s : string) : list string :=
  match s with
  | EmptyString => [""]
  | String c s' =>
      if isNewline c then "" :: splitLines s'
      else match splitLines s' with
           | [] => [String c ""]
           | l :: ls => String c l :: ls
           end
  end.

(** [s.includes(part)] *)
Definition includes (s part : string) : bool :=
  match String.index 0 part s with
  | Some _ => true
  | None => false
  end.

(** ** Sample data for the examples *)

Definition France : Country :=
  mkCountry "France" "FR" "Paris" (46 # 1) (2 # 1) Europe Easy Sovereign.

Definition Fiji : Country :=
  mkCountry "Fiji" "FJ" "Suva" (-18 # 1) (178 # 1) Oceania Normal Sovereign.

Definition Guam : Country :=
  mkCountry "Guam" "GU" "Hagatna" (13 # 1) (145 # 1) Oceania Hard Territory.

Definition sampleCountries : list Country := [France; Guam; Fiji].

(** A component in daily mode on the day France is the puzzle. *)
Definition sampleApp : App :=
  mkApp false France (freshState "2024-02-12") None (freshState "infinite").

(** ** The rest of the component ([App.tsx]) *)

(** The whole state of the component: the part [handleGuess] works on,
    and the day, the filter and the panels beside it.  The timers that
    clear the toast and open the result panel later are left out. *)
Record Session : Type := mkSession {
  game : App;
  currentDay : Z;
  activeFilter : GameFilter.t;
  isModePanelOpen : bool;
  isHelpOpen : bool;
  isResultOpen : bool;
  toast : option string
}.

(** The initialiser of [dailyState]: [parsed] is what [JSON.parse]
    makes of the stored text, [None] when nothing is stored or the text
    does not parse. *)
Definition initialDailyState (parsed : option GameState) (todayLDN : string)
  : GameState :=
  match parsed with
  | Some p => if (date p =? todayLDN)%string then p else freshState todayLDN
  | None => freshState todayLDN
  end.

(** [checkDayChange].  It reads the clock three times: for the day
    number, for the text [todayLDN] of the date, and inside
    [getDailyCountry].  The result is [None] when [getDailyCountry]
    returns [undefined], which is no component state of the data model. *)
Definition checkDayChange (COUNTRIES : list Country) (s : Session)
           (clockDay : CalendarDate) (todayLDN : string)
           (clockCountry : CalendarDate) : option Session :=
  let dayNow := getDayNumber clockDay in
  if negb (dayNow =? currentDay s) then
    match getDailyCountry COUNTRIES clockCountry with
    | None => None
    | Some country =>
        Some (mkSession
                (mkApp (isInfiniteMode (game s)) country (freshState todayLDN)
                       (infiniteCountry (game s)) (infiniteState (game s)))
                dayNow (activeFilter s) (isModePanelOpen s) (isHelpOpen s)
                (if negb (isInfiniteMode (game s)) then false
                 else isResultOpen s)
                (Some "A new day in London has begun! New daily shape unlocked."))
    end
  else Some s.

(** The text of a continent selector. *)
Definition continentName (c : Continent) : string :=
  match c with
  | Africa => "Africa"
  | Americas => "Americas"
  | Asia => "Asia"
  | Europe => "Europe"
  | Oceania => "Oceania"
  | All => "All"
  end.

(** [modeName] of [startInfiniteMode]. *)
Definition modeName (f : GameFilter.t) : string :=
  let modeName :=
    if Continent_eqb (GameFilter.continent f) All then "Global"
    else continentName (GameFilter.continent f) in
  match GameFilter.type f with
  | OnlyType Territory => (modeName ++ " (Territories)")%string
  | _ => modeName
  end.

(** [startInfiniteMode], with the value [r] of its [Math.random()], on
    a component on screen (see [App]). *)
Definition startInfiniteMode (COUNTRIES : list Country) (s : Session) (r : Q)
           (filterOverride : option GameFilter.t) : Session :=
  let filter :=
    match filterOverride with
    | Some f => f
    | None => activeFilter s
    end in
  let randomCountry :=
    getRandomCountryFiltered COUNTRIES r filter
      (Some (code (activeCountry (game s)))) in
  mkSession
    (mkApp true (dailyCountry (game s)) (dailyState (game s))
           randomCountry (freshState "infinite"))
    (currentDay s) (activeFilter s) (isModePanelOpen s) (isHelpOpen s)
    false
    (Some (modeName filter ++ " shape loaded!")%string).

Definition setActiveFilter (s : Session) (f : GameFilter.t) : Session :=
  mkSession (game s) (currentDay s) f (isModePanelOpen s) (isHelpOpen s)
            (isResultOpen s) (toast s).

Definition handleModeChange (COUNTRIES : list Country) (s : Session) (r : Q)
           (newFilter : GameFilter.t) : Session :=
  startInfiniteMode COUNTRIES (setActiveFilter s newFilter) r (Some newFilter).

(** "Back to Daily Challenge": [setIsInfiniteMode(false)]. *)
Definition backToDaily (app : App) : App :=
  mkApp false (dailyCountry app) (dailyState app)
        (infiniteCountry app) (infiniteState app).

(** [shareText] of [handleShare], on the date the clock shows. *)
Definition shareText (londonDate : CalendarDate) (app : App) : string :=
  generateShareGrid londonDate (guesses (activeState app))
                    (name (activeCountry app)) (won (activeState app))
                    (isInfiniteMode app).

(** "n Guesses Remaining" under the guess list. *)
Definition guessesRemaining (app : App) : Z :=
  MAX_GUESSES - arrayLength (guesses (activeState app)).

(** ** The countdown ([utils.ts]) *)

(** [s.padStart(2, '0')] *)
Definition padStart2 (s : string) : string :=
  match String.length s with
  | O => "00"
  | S O => ("0" ++ s)%string
  | _ => s
  end.

(** The three numbers of [getTimeUntilNextDay] for the difference
    [diff] in milliseconds between the next midnight and now. *)
Definition countdownHours (diff : Z) : Z := diff / (1000 * 60 * 60).
Definition countdownMinutes (diff : Z) : Z :=
  Z.rem diff (1000 * 60 * 60) / (1000 * 60).
Definition countdownSeconds (diff : Z) : Z :=
  Z.rem diff (1000 * 60) / 1000.

(** The text that [getTimeUntilNextDay] returns for that difference. *)
Definition countdownText (diff : Z) : string :=
  (padStart2 (numberToString (countdownHours diff)) ++ ":"
   ++ padStart2 (numberToString (countdownMinutes diff)) ++ ":"
   ++ padStart2 (numberToString (countdownSeconds diff)))%string.

(** ** Notions used to state the properties *)

(** [a] is an earlier day than [b]. *)
Definition dateLt (a b : CalendarDate) : Prop :=
  year a < year b
  \/ (year a = year b
      /\ (month a < month b \/ (month a = month b /\ day a < day b))).

(** A guess hits the target when their lower-cased texts are equal. *)
Definition hits (target guess : string) : bool :=
  (toLowerCase guess =? toLowerCase target)%string.

(** The guesses that count when at most [room] more are allowed: those
    up to the first hit, and no more than [room]. *)
Fixpoint consumed (target : string) (room : nat) (gs : list string)
  : list string :=
  match room, gs with
  | O, _ => []
  | _, [] => []
  | S room', g :: gs' =>
      if hits target g then [g] else g :: consumed target room' gs'
  end.

(** A text without a line end, and the marker of a hit or a miss. *)
Fixpoint oneLine (s : string) : bool :=
  match s with
  | EmptyString => true
  | String c s' => negb (isNewline c) && oneLine s'
  end.

Definition markerOf (hit : bool) : string :=
  if hit then successMarker else failureMarker.

(** The two decimal digits of a number below 100. *)
Definition digit (n : Z) : ascii := ascii_of_nat (48 + Z.to_nat n).

Definition twoDigits (n : Z) : string :=
  String (digit (n / 10)) (String (digit (n mod 10)) EmptyString).

(** The octant of a bearing: 0 around north, then clockwise. *)
Definition octant (q : Q) : Z :=
  Qfloor ((q + (45 # 2)) / (45 # 1)) mod 8.

Definition sampleSession : Session :=
  mkSession sampleApp 42 (GameFilter.mk All Mixed AllTypes)
            false false false None.

(** * Properties *)

(** ** The round state machine *)

Lemma activeState_handleGuess (app : App) (g : string) :
  activeState (handleGuess app g)
  = submitGuess (activeState app) (activeCountry app) g.
Proof.
  unfold handleGuess, submitGuess.
  destruct (isFinished (activeState app)) eqn:Hfin; [reflexivity|].
  unfold activeState, setInfiniteState, setDailyState.
  destruct (isInfiniteMode app) eqn:Hmode; simpl; rewrite ?Hmode; reflexivity.
Qed.

Lemma isInfiniteMode_handleGuess (app : App) (g : string) :
  isInfiniteMode (handleGuess app g) = isInfiniteMode app.
Proof.
  unfold handleGuess.
  destruct (isFinished (activeState app)); [reflexivity|].
  destruct (isInfiniteMode app) eqn:Hmode; simpl; rewrite ?Hmode; reflexivity.
Qed.

Lemma countries_handleGuess (app : App) (g : string) :
  dailyCountry (handleGuess app g) = dailyCountry app
  /\ infiniteCountry (handleGuess app g) = infiniteCountry app.
Proof.
  unfold handleGuess.
  destruct (isFinished (activeState app)); [split; reflexivity|].
  destruct (isInfiniteMode app); split; reflexivity.
Qed.

Lemma activeCountry_handleGuess (app : App) (g : string) :
  activeCountry (handleGuess app g) = activeCountry app.
Proof.
  unfold activeCountry.
  rewrite isInfiniteMode_handleGuess.
  destruct (countries_handleGuess app g) as [-> ->].
  reflexivity.
Qed.

(** A run of guesses acts on the active state as a run of [submitGuess]
    against the one active country. *)
Lemma activeState_fold_handleGuess (gs : list string) (app : App) :
  activeState (fold_left handleGuess gs app)
  = fold_left (fun st g => submitGuess st (activeCountry app) g) gs
              (activeState app).
Proof.
  revert app.
  induction gs as [|g gs IH]; intros app; simpl; [reflexivity|].
  rewrite IH, activeState_handleGuess, activeCountry_handleGuess.
  reflexivity.
Qed.

Lemma arrayLength_app {A : Type} (l : list A) (x : A) :
  arrayLength (l ++ [x]) = arrayLength l + 1.
Proof.
  unfold arrayLength. rewrite List.length_app. cbn [List.length]. lia.
Qed.

Lemma arrayLength_nonneg {A : Type} (l : list A) : 0 <= arrayLength l.
Proof. unfold arrayLength. lia. Qed.

(** Non-matching guesses on an open round with room left only pile up. *)
Lemma submitGuess_misses (target : Country) (gs : list string) (st : GameState) :
  isFinished st = false ->
  won st = false ->
  Forall (fun g => toLowerCase g <> toLowerCase (name target)) gs ->
  arrayLength (guesses st) + arrayLength gs < MAX_GUESSES ->
  fold_left (fun s g => submitGuess s target g) gs st
  = mkGameState (date st) (guesses st ++ gs) false false.
Proof.
  revert st.
  induction gs as [|g gs IH]; intros st Hfin Hwon Hmiss Hlen.
  - simpl. rewrite app_nil_r. destruct st; simpl in *; subst; reflexivity.
  - inversion Hmiss as [|? ? Hg Hgs]; subst.
    simpl. unfold submitGuess at 2. rewrite Hfin.
    assert (Hlen' : arrayLength (g :: gs) = 1 + arrayLength gs)
      by (unfold arrayLength; cbn [List.length]; lia).
    rewrite Hlen' in Hlen.
    pose proof (arrayLength_nonneg gs) as Hgs0.
    rewrite IH.
    + simpl. rewrite <- app_assoc. reflexivity.
    + simpl. apply String.eqb_neq in Hg. rewrite Hg. simpl.
      rewrite arrayLength_app. unfold MAX_GUESSES in *.
      apply Z.leb_gt. lia.
    + simpl. apply String.eqb_neq. exact Hg.
    + exact Hgs.
    + simpl. rewrite arrayLength_app. lia.
Qed.

Lemma submitGuess_open (st : GameState) (target : Country) (g : string) :
  isFinished st = false ->
  submitGuess st target g
  = mkGameState (date st) (guesses st ++ [g])
      ((toLowerCase g =? toLowerCase (name target))%string
       || (MAX_GUESSES <=? arrayLength (guesses st ++ [g])))
      (toLowerCase g =? toLowerCase (name target))%string.
Proof.
  intros Hfin. unfold submitGuess. rewrite Hfin. reflexivity.
Qed.

(** Lower-casing on Basic Latin texts identifies exactly the texts that
    are equal up to the case of their letters. *)
Lemma nat_of_lowerAscii (c : ascii) :
  nat_of_ascii (lowerAscii c)
  = if (Nat.leb 65 (nat_of_ascii c) && Nat.leb (nat_of_ascii c) 90)%bool
    then (nat_of_ascii c + 32)%nat else nat_of_ascii c.
Proof.
  unfold lowerAscii. cbv zeta.
  destruct (Nat.leb 65 (nat_of_ascii c) && Nat.leb (nat_of_ascii c) 90)%bool
    eqn:Hrange; [|reflexivity].
  apply andb_true_iff in Hrange. destruct Hrange as [Hlo Hhi].
  apply Nat.leb_le in Hlo, Hhi.
  apply nat_ascii_embedding. lia.
Qed.

Lemma lowerAscii_same (a b : ascii) :
  lowerAscii a = lowerAscii b <-> sameLetter a b = true.
Proof.
  assert (Hcode : lowerAscii a = lowerAscii b
                  <-> nat_of_ascii (lowerAscii a) = nat_of_ascii (lowerAscii b)).
  { split; [intros ->; reflexivity|].
    intros Heq. rewrite <- (ascii_nat_embedding (lowerAscii a)).
    rewrite <- (ascii_nat_embedding (lowerAscii b)). rewrite Heq. reflexivity. }
  rewrite Hcode, !nat_of_lowerAscii. unfold sameLetter. cbv zeta.
  assert (Hinj : nat_of_ascii a = nat_of_ascii b -> a = b).
  { intros Heq. rewrite <- (ascii_nat_embedding a), <- (ascii_nat_embedding b).
    rewrite Heq. reflexivity. }
  destruct (Nat.leb_spec 65 (nat_of_ascii a));
    destruct (Nat.leb_spec (nat_of_ascii a) 90);
    destruct (Nat.leb_spec 65 (nat_of_ascii b));
    destruct (Nat.leb_spec (nat_of_ascii b) 90);
    destruct (Nat.eqb_spec (nat_of_ascii a) (nat_of_ascii b));
    destruct (Nat.eqb_spec (nat_of_ascii b) (nat_of_ascii a + 32));
    destruct (Nat.eqb_spec (nat_of_ascii a) (nat_of_ascii b + 32));
    cbn [andb orb]; split; intros Hgoal; try reflexivity; try discriminate; lia.
Qed.

Lemma toLowerCaseAscii_same (s t : string) :
  toLowerCaseAscii s = toLowerCaseAscii t <-> sameIgnoringCase s t = true.
Proof.
  revert t. induction s as [|a s IH]; intros [|b t]; cbn [toLowerCaseAscii sameIgnoringCase].
  - split; reflexivity.
  - split; discriminate.
  - split; discriminate.
  - rewrite andb_true_iff, <- IH, <- lowerAscii_same. split.
    + intros [= Hc Hs]. split; assumption.
    + intros [-> ->]. reflexivity.
Qed.

Lemma toLowerCase_same (s t : string) :
  foldsBasicLatin toLowerCase ->
  isAscii s = true -> isAscii t = true ->
  (toLowerCase s = toLowerCase t <-> sameIgnoringCase s t = true).
Proof.
  intros Hfold Hs Ht. rewrite (Hfold s Hs), (Hfold t Ht).
  apply toLowerCaseAscii_same.
Qed.

(** C1. On a round that is not finished, a guess is compared with the
    name of the target country for equality after lower-casing both,
    and is appended to the guesses; the round is then won (finished,
    won) if it matched, lost (finished, not won) if it did not and the
    guesses now number 6, and stays in progress otherwise.  Six guesses
    that all miss leave a lost round of 6 guesses.  On Basic Latin
    texts the comparison is equality up to the case of the letters;
    with the target France, the guesses Spain, Germany, France leave a
    won round of 3 guesses, and Spain, Germany, Italy, Brazil, Japan,
    Egypt a lost round of 6 guesses. *)
Theorem handleGuess_outcome :
  (forall (app : App) (guessText : string),
      isFinished (activeState app) = false ->
      let target := activeCountry app in
      let st' := activeState (handleGuess app guessText) in
      guesses st' = guesses (activeState app) ++ [guessText]
      /\ (toLowerCase guessText = toLowerCase (name target) ->
          isFinished st' = true /\ won st' = true)
      /\ (toLowerCase guessText <> toLowerCase (name target) ->
          MAX_GUESSES <= arrayLength (guesses st') ->
          isFinished st' = true /\ won st' = false)
      /\ (toLowerCase guessText <> toLowerCase (name target) ->
          arrayLength (guesses st') < MAX_GUESSES ->
          isFinished st' = false /\ won st' = false))
  /\ (forall (app : App) (key : string) (gs : list string),
      activeState app = freshState key ->
      List.length gs = 6%nat ->
      Forall (fun g => toLowerCase g <> toLowerCase (name (activeCountry app))) gs ->
      activeState (fold_left handleGuess gs app) = mkGameState key gs true false)
  /\ (foldsBasicLatin toLowerCase ->
      (forall (app : App) (guessText : string),
          isFinished (activeState app) = false ->
          isAscii guessText = true ->
          isAscii (name (activeCountry app)) = true ->
          (won (activeState (handleGuess app guessText)) = true
           <-> sameIgnoringCase guessText (name (activeCountry app)) = true))
      /\ (forall (app : App) (key : string),
          activeState app = freshState key ->
          name (activeCountry app) = "France" ->
          activeState (fold_left handleGuess ["Spain"; "Germany"; "France"] app)
          = mkGameState key ["Spain"; "Germany"; "France"] true true)
      /\ (forall (app : App) (key : string),
          activeState app = freshState key ->
          name (activeCountry app) = "France" ->
          activeState
            (fold_left handleGuess
               ["Spain"; "Germany"; "Italy"; "Brazil"; "Japan"; "Egypt"] app)
          = mkGameState key
              ["Spain"; "Germany"; "Italy"; "Brazil"; "Japan"; "Egypt"]
              true false)).
Proof.
  assert (Hsix : forall (app : App) (key : string) (gs : list string),
      activeState app = freshState key ->
      List.length gs = 6%nat ->
      Forall (fun g => toLowerCase g <> toLowerCase (name (activeCountry app))) gs ->
      activeState (fold_left handleGuess gs app) = mkGameState key gs true false).
  { intros app key gs Hst Hlen Hmiss.
    rewrite activeState_fold_handleGuess, Hst.
    destruct (exists_last (l := gs)) as [front [g Hgs]];
      [intros ->; discriminate|].
    subst gs.
    rewrite Forall_app in Hmiss. destruct Hmiss as [Hfront Hg].
    inversion Hg as [|? ? Hg' _]; subst.
    rewrite List.length_app in Hlen. cbn [List.length] in Hlen.
    rewrite fold_left_app.
    rewrite (submitGuess_misses (activeCountry app) front (freshState key));
      try reflexivity; try assumption.
    - cbn [fold_left]. rewrite submitGuess_open by reflexivity.
      cbn [date guesses freshState List.app].
      apply String.eqb_neq in Hg'. rewrite Hg'.
      replace (MAX_GUESSES <=? arrayLength (front ++ [g])) with true; [reflexivity|].
      symmetry. apply Z.leb_le. unfold arrayLength, MAX_GUESSES.
      rewrite List.length_app. cbn [List.length]. lia.
    - unfold arrayLength, MAX_GUESSES. cbn [guesses freshState List.length]. lia. }
  split; [|split; [exact Hsix|]].
  - intros app g Hfin target st'. subst target st'.
    rewrite activeState_handleGuess, submitGuess_open by exact Hfin.
    cbn [guesses isFinished won].
    split; [reflexivity|].
    split; [|split].
    + intros Heq. apply String.eqb_eq in Heq. rewrite Heq. split; reflexivity.
    + intros Hne Hlen. apply String.eqb_neq in Hne. rewrite Hne.
      apply Z.leb_le in Hlen. rewrite Hlen. split; reflexivity.
    + intros Hne Hlen. apply String.eqb_neq in Hne. rewrite Hne.
      apply Z.leb_gt in Hlen. rewrite Hlen. split; reflexivity.
  - intros Hfold. split; [|split].
    + intros app g Hfin Hg Hname.
      rewrite activeState_handleGuess, submitGuess_open by exact Hfin.
      cbn [won]. rewrite String.eqb_eq.
      apply toLowerCase_same; assumption.
    + intros app key Hst Hname.
      rewrite activeState_fold_handleGuess, Hst.
      cbn [fold_left]. unfold submitGuess, newState. rewrite Hname.
      rewrite !Hfold by reflexivity. reflexivity.
    + intros app key Hst Hname.
      apply Hsix; [exact Hst|reflexivity|].
      rewrite Hname.
      repeat (constructor;
              [intros Heq; rewrite !Hfold in Heq by reflexivity;
               vm_compute in Heq; discriminate|]).
      constructor.
Qed.

(** Along guesses from a fresh round, an open round has room left. *)
Lemma reachable_room (st : GameState) :
  reachable st ->
  arrayLength (guesses st) <= MAX_GUESSES
  /\ (isFinished st = false -> arrayLength (guesses st) < MAX_GUESSES).
Proof.
  induction 1 as [key|app g Hreach [IHle IHopen]].
  - unfold MAX_GUESSES, arrayLength. simpl. lia.
  - rewrite activeState_handleGuess. unfold submitGuess.
    destruct (isFinished (activeState app)) eqn:Hfin.
    + split; [exact IHle|]. intros Hopen. congruence.
    + specialize (IHopen eq_refl).
      cbn [newState guesses isFinished]. rewrite arrayLength_app.
      split; [lia|].
      intros Hopen. apply orb_false_elim in Hopen. destruct Hopen as [_ Hlt].
      apply Z.leb_gt in Hlt. exact Hlt.
Qed.

(** C2. No round state that guesses lead to from a fresh round holds
    more than 6 guesses, and on a finished round [handleGuess] returns
    the component state as it was. *)
Theorem handleGuess_bounded_and_idle :
  (forall st : GameState,
      reachable st -> arrayLength (guesses st) <= 6)
  /\ (forall (app : App) (guessText : string),
      isFinished (activeState app) = true ->
      handleGuess app guessText = app).
Proof.
  split.
  - intros st Hreach. exact (proj1 (reachable_room st Hreach)).
  - intros app g Hfin. unfold handleGuess. rewrite Hfin. reflexivity.
Qed.


(** C10. A guess leaves the date key of the active round state as it
    was: [handleGuess] writes only the guesses, the finished flag and
    the won flag of the active state, and it leaves the mode, both
    countries and the round state of the other mode alone. *)
Theorem handleGuess_keeps_date (app : App) (guessText : string) :
  date (activeState (handleGuess app guessText)) = date (activeState app)
  /\ isInfiniteMode (handleGuess app guessText) = isInfiniteMode app
  /\ dailyCountry (handleGuess app guessText) = dailyCountry app
  /\ infiniteCountry (handleGuess app guessText) = infiniteCountry app
  /\ (if isInfiniteMode app
      then dailyState (handleGuess app guessText) = dailyState app
      else infiniteState (handleGuess app guessText) = infiniteState app).
Proof.
  split.
  { rewrite activeState_handleGuess. unfold submitGuess.
    destruct (isFinished (activeState app)); reflexivity. }
  split; [apply isInfiniteMode_handleGuess|].
  split; [apply countries_handleGuess|].
  split; [apply countries_handleGuess|].
  unfold handleGuess.
  destruct (isFinished (activeState app)).
  - destruct (isInfiniteMode app); reflexivity.
  - destruct (isInfiniteMode app); reflexivity.
Qed.

(** ** The day index *)

Lemma InLeapYear_spec (y : Z) :
  InLeapYear y = true
  <-> y mod 4 = 0 /\ (y mod 100 <> 0 \/ y mod 400 = 0).
Proof.
  unfold InLeapYear.
  rewrite andb_true_iff, orb_true_iff, negb_true_iff.
  rewrite !Z.eqb_eq, Z.eqb_neq. reflexivity.
Qed.

Lemma DayFromYear_succ (y : Z) :
  DayFromYear (y + 1) = DayFromYear y + (if InLeapYear y then 366 else 365).
Proof.
  unfold DayFromYear.
  destruct (InLeapYear y) eqn:Hleap.
  - apply InLeapYear_spec in Hleap.
    Z.div_mod_to_equations. lia.
  - assert (Hn : ~ (y mod 4 = 0 /\ (y mod 100 <> 0 \/ y mod 400 = 0))).
    { intros H. apply InLeapYear_spec in H. congruence. }
    Z.div_mod_to_equations. lia.
Qed.

Lemma month_cases (m : Z) :
  1 <= m <= 12 ->
  m = 1 \/ m = 2 \/ m = 3 \/ m = 4 \/ m = 5 \/ m = 6
  \/ m = 7 \/ m = 8 \/ m = 9 \/ m = 10 \/ m = 11 \/ m = 12.
Proof. lia. Qed.

(** The day after a date is the next day of ECMAScript's day count. *)
Lemma MakeDay_nextDay (d : CalendarDate) :
  validDate d -> MakeDay (nextDay d) = MakeDay d + 1.
Proof.
  destruct d as [y m dd]. unfold validDate, nextDay, MakeDay. simpl.
  intros [Hm Hd].
  destruct (dd <? DaysInMonth y m) eqn:Hlt; simpl; [lia|].
  apply Z.ltb_ge in Hlt.
  assert (Hdd : dd = DaysInMonth y m) by lia. clear Hlt Hd.
  destruct (month_cases m Hm) as
    [-> | [-> | [-> | [-> | [-> | [-> | [-> | [-> | [-> | [-> | [-> | ->]]]]]]]]]]];
    subst dd; unfold DaysInMonth, DaysBeforeMonth; simpl;
    try rewrite DayFromYear_succ; destruct (InLeapYear y); lia.
Qed.

Lemma DaysInMonth_bounds (y m : Z) : 28 <= DaysInMonth y m <= 31.
Proof.
  unfold DaysInMonth.
  repeat match goal with
         | |- context [if ?b then _ else _] => destruct b
         end; lia.
Qed.

(** The day after a date of the calendar is a date of the calendar, and
    it is not before the epoch when the date is not. *)
Lemma nextDay_valid (d : CalendarDate) :
  validDate d -> validDate (nextDay d).
Proof.
  destruct d as [y m dd]. unfold validDate, nextDay. cbn [year month day].
  intros [Hm Hd].
  destruct (dd <? DaysInMonth y m) eqn:Hlt.
  - apply Z.ltb_lt in Hlt. cbn [year month day]. lia.
  - destruct (m <? 12) eqn:Hm12; cbn [year month day].
    + apply Z.ltb_lt in Hm12.
      pose proof (DaysInMonth_bounds y (m + 1)). lia.
    + pose proof (DaysInMonth_bounds (y + 1) 1). lia.
Qed.

Lemma nextDay_after_epoch (d : CalendarDate) :
  validDate d -> dateLeb epoch d = true -> dateLeb epoch (nextDay d) = true.
Proof.
  destruct d as [y m dd]. unfold validDate, nextDay, dateLeb.
  cbn [year month day epoch].
  intros [Hm Hd] Hle.
  assert (Hy : 2024 <= y).
  { apply orb_true_iff in Hle. destruct Hle as [Hlt|Heq].
    - apply Z.ltb_lt in Hlt. lia.
    - apply andb_true_iff in Heq. destruct Heq as [Heq _].
      apply Z.eqb_eq in Heq. lia. }
  assert (Hgoal : forall y' m' d', 2024 <= y' -> 1 <= m' -> 1 <= d' ->
            (2024 <? y') || ((2024 =? y')
               && ((1 <? m') || ((1 =? m') && (1 <=? d')))) = true).
  { intros y' m' d' Hy' Hm' Hd'.
    destruct (2024 <? y') eqn:H1; [reflexivity|].
    apply Z.ltb_ge in H1. assert (y' = 2024) by lia. subst y'.
    cbn [orb]. rewrite Z.eqb_refl. cbn [andb].
    destruct (1 <? m') eqn:H2; [reflexivity|].
    apply Z.ltb_ge in H2. assert (m' = 1) by lia. subst m'.
    cbn [orb]. rewrite Z.eqb_refl. cbn [andb]. apply Z.leb_le. exact Hd'. }
  destruct (dd <? DaysInMonth y m); [|destruct (m <? 12)];
    cbn [year month day]; apply Hgoal; lia.
Qed.

Lemma getDayNumber_abs (d : CalendarDate) :
  getDayNumber d = Z.abs (MakeDay d - MakeDay epoch).
Proof.
  unfold getDayNumber, getTime.
  rewrite <- Z.mul_sub_distr_r, Z.abs_mul.
  change (Z.abs MS_PER_DAY) with MS_PER_DAY.
  apply Z.div_mul. unfold MS_PER_DAY. lia.
Qed.

Lemma DayFromYear_mono (y1 y2 : Z) :
  y1 <= y2 -> DayFromYear y1 + 365 * (y2 - y1) <= DayFromYear y2.
Proof.
  intros Hle. unfold DayFromYear. Z.div_mod_to_equations. lia.
Qed.

Lemma DaysBeforeMonth_bounds (y m : Z) :
  0 <= DaysBeforeMonth y m <= 335.
Proof.
  unfold DaysBeforeMonth.
  destruct (InLeapYear y);
    repeat match goal with
           | |- context [if ?b then _ else _] => destruct b
           end; lia.
Qed.

Lemma month_ends_in_year (y m : Z) :
  1 <= m <= 12 ->
  DaysBeforeMonth y m + DaysInMonth y m
  <= (if InLeapYear y then 366 else 365).
Proof.
  intros Hm.
  destruct (month_cases m Hm) as
    [-> | [-> | [-> | [-> | [-> | [-> | [-> | [-> | [-> | [-> | [-> | ->]]]]]]]]]]];
    unfold DaysInMonth, DaysBeforeMonth; simpl; destruct (InLeapYear y); lia.
Qed.

(** A date on or after the epoch is not before it in the day count. *)
Lemma MakeDay_from_epoch (d : CalendarDate) :
  validDate d -> dateLeb epoch d = true -> MakeDay epoch <= MakeDay d.
Proof.
  destruct d as [y m dd]. unfold validDate, dateLeb.
  cbn [year month day epoch].
  intros [Hm Hd] Hle.
  change (MakeDay epoch) with 19723.
  unfold MakeDay. cbn [year month day].
  pose proof (DaysBeforeMonth_bounds y m) as Hb.
  assert (Hy : 2024 <= y).
  { apply orb_true_iff in Hle. destruct Hle as [Hlt|Heq].
    - apply Z.ltb_lt in Hlt. lia.
    - apply andb_true_iff in Heq. destruct Heq as [Heq _].
      apply Z.eqb_eq in Heq. lia. }
  pose proof (DayFromYear_mono 2024 y Hy) as Hmono.
  change (DayFromYear 2024) with 19723 in Hmono.
  lia.
Qed.

(** A date before the epoch is before it in the day count. *)
Lemma MakeDay_before_epoch (d : CalendarDate) :
  validDate d -> dateLeb epoch d = false -> MakeDay d < MakeDay epoch.
Proof.
  destruct d as [y m dd]. unfold validDate, dateLeb.
  cbn [year month day epoch].
  intros [Hm Hd] Hle.
  change (MakeDay epoch) with 19723.
  unfold MakeDay. cbn [year month day].
  assert (Hy : y < 2024).
  { apply orb_false_iff in Hle. destruct Hle as [Hlt Hrest].
    apply Z.ltb_ge in Hlt.
    destruct (Z.eq_dec y 2024) as [->|Hne]; [|lia].
    exfalso. cbn [Z.eqb Pos.eqb andb] in Hrest.
    apply orb_false_iff in Hrest. destruct Hrest as [Hmlt Hrest].
    apply Z.ltb_ge in Hmlt.
    assert (m = 1) by lia. subst m.
    cbn [Z.eqb Pos.eqb andb] in Hrest.
    apply Z.leb_gt in Hrest. lia. }
  pose proof (month_ends_in_year y m Hm) as Hend.
  pose proof (DayFromYear_succ y) as Hsucc.
  assert (Hy1 : y + 1 <= 2024) by lia.
  pose proof (DayFromYear_mono (y + 1) 2024 Hy1) as Hmono.
  change (DayFromYear 2024) with 19723 in Hmono.
  destruct (InLeapYear y); lia.
Qed.

(** C5, as the code has it.  The day number of a valid date is the
    number of whole calendar days between the date and the first day of
    2024, in either direction, so it is never negative; equal dates
    have equal day numbers; and from the epoch on, the day after a date
    has the next day number. *)
Theorem getDayNumber_calendar_days :
  (forall d1 d2 : CalendarDate, d1 = d2 -> getDayNumber d1 = getDayNumber d2)
  /\ (forall d : CalendarDate,
         getDayNumber d = Z.abs (MakeDay d - MakeDay epoch)
         /\ 0 <= getDayNumber d)
  /\ (forall d : CalendarDate,
         validDate d -> dateLeb epoch d = true ->
         getDayNumber d = MakeDay d - MakeDay epoch
         /\ getDayNumber (nextDay d) = getDayNumber d + 1).
Proof.
  split; [intros d1 d2 ->; reflexivity|].
  split.
  - intros d. rewrite getDayNumber_abs. split; [reflexivity|apply Z.abs_nonneg].
  - intros d Hvalid Hafter.
    pose proof (MakeDay_from_epoch d Hvalid Hafter) as Hle.
    pose proof (MakeDay_nextDay d Hvalid) as Hnext.
    rewrite !getDayNumber_abs, Hnext. lia.
Qed.

Lemma getDayNumber_calendar_days_witness :
  validDate (mkDate 2024 2 29)
  /\ dateLeb epoch (mkDate 2024 2 29) = true
  /\ nextDay (mkDate 2024 2 29) = mkDate 2024 3 1
  /\ getDayNumber (mkDate 2024 2 29) = 59
  /\ getDayNumber (nextDay (mkDate 2024 2 29)) = getDayNumber (mkDate 2024 2 29) + 1.
Proof.
  assert (Hvalid : validDate (mkDate 2024 2 29)) by (vm_compute; intuition discriminate).
  split; [exact Hvalid|].
  split; [reflexivity|].
  split; [reflexivity|].
  split; [reflexivity|].
  apply (proj2 (proj2 getDayNumber_calendar_days) (mkDate 2024 2 29) Hvalid).
  reflexivity.
Defined.

(** C5 as stated fails before the epoch: the day after 31 December 2023
    is the epoch itself, and the day number goes from 1 down to 0. *)
Lemma getDayNumber_successor_counterexample :
  validDate (mkDate 2023 12 31)
  /\ nextDay (mkDate 2023 12 31) = epoch
  /\ getDayNumber (mkDate 2023 12 31) = 1
  /\ getDayNumber (nextDay (mkDate 2023 12 31)) = 0
  /\ getDayNumber (nextDay (mkDate 2023 12 31))
     <> getDayNumber (mkDate 2023 12 31) + 1.
Proof.
  split; [vm_compute; intuition discriminate|].
  split; [reflexivity|].
  split; [reflexivity|].
  split; [reflexivity|].
  vm_compute. discriminate.
Qed.

(** X1. Before the epoch the absolute value makes the day number count
    down towards it. *)
Lemma getDayNumber_before_epoch (d : CalendarDate) :
  validDate d -> dateLeb epoch d = false ->
  getDayNumber (nextDay d) = getDayNumber d - 1.
Proof.
  intros Hvalid Hbefore.
  pose proof (MakeDay_before_epoch d Hvalid Hbefore) as Hlt.
  pose proof (MakeDay_nextDay d Hvalid) as Hnext.
  rewrite !getDayNumber_abs, Hnext. lia.
Qed.

(** X2. From the epoch on the day number keeps step with the calendar:
    [n] days later it is [n] more. *)
Lemma getDayNumber_days_later (n : nat) (d : CalendarDate) :
  validDate d -> dateLeb epoch d = true ->
  validDate (Nat.iter n nextDay d)
  /\ dateLeb epoch (Nat.iter n nextDay d) = true
  /\ getDayNumber (Nat.iter n nextDay d) = getDayNumber d + Z.of_nat n.
Proof.
  intros Hvalid Hafter.
  induction n as [|n [IHvalid [IHafter IHday]]].
  - cbn [Nat.iter nat_rect]. split; [exact Hvalid|]. split; [exact Hafter|]. lia.
  - change (Nat.iter (S n) nextDay d) with (nextDay (Nat.iter n nextDay d)).
    split; [apply nextDay_valid; exact IHvalid|].
    split; [apply nextDay_after_epoch; assumption|].
    pose proof (MakeDay_from_epoch _ IHvalid IHafter) as Hle.
    pose proof (MakeDay_nextDay _ IHvalid) as Hnext.
    rewrite (getDayNumber_abs (nextDay _)), Hnext.
    rewrite (getDayNumber_abs (Nat.iter _ _ _)) in IHday.
    rewrite Nat2Z.inj_succ. lia.
Qed.

(** ** The daily puzzle *)

Lemma arrayGet_nth_error {A : Type} (arr : list A) (i : Z) :
  0 <= i -> arrayGet arr i = nth_error arr (Z.to_nat i).
Proof.
  intros Hi. unfold arrayGet.
  destruct (i <? 0) eqn:Hneg; [apply Z.ltb_lt in Hneg; lia|reflexivity].
Qed.

Lemma arrayGet_In {A : Type} (arr : list A) (i : Z) (x : A) :
  arrayGet arr i = Some x -> In x arr.
Proof.
  unfold arrayGet. destruct (i <? 0); [discriminate|].
  apply nth_error_In.
Qed.

Lemma arrayGet_in_range {A : Type} (arr : list A) (i : Z) :
  0 <= i < arrayLength arr -> exists x, arrayGet arr i = Some x.
Proof.
  intros [Hlo Hhi]. rewrite arrayGet_nth_error by exact Hlo.
  destruct (nth_error arr (Z.to_nat i)) as [x|] eqn:Hnth; [exists x; reflexivity|].
  apply nth_error_None in Hnth. unfold arrayLength in Hhi. lia.
Qed.

Lemma arrayLength_zero {A : Type} (arr : list A) :
  arrayLength arr = 0 <-> arr = [].
Proof.
  unfold arrayLength. destruct arr as [|x arr]; cbn [List.length].
  - split; reflexivity.
  - split; [lia|discriminate].
Qed.

Lemma sovereignPool_In (COUNTRIES : list Country) (c : Country) :
  In c (sovereignPool COUNTRIES) <-> In c COUNTRIES /\ type c = Sovereign.
Proof.
  unfold sovereignPool. rewrite filter_In.
  destruct (type c); simpl; intuition congruence.
Qed.

Lemma dailyCountryOn_index (COUNTRIES : list Country) (n : Z) :
  0 <= n -> sovereignPool COUNTRIES <> [] ->
  dailyCountryOn COUNTRIES n
  = nth_error (sovereignPool COUNTRIES)
      (Z.to_nat (n mod arrayLength (sovereignPool COUNTRIES)))
  /\ 0 <= n mod arrayLength (sovereignPool COUNTRIES)
     < arrayLength (sovereignPool COUNTRIES).
Proof.
  intros Hn Hpool.
  assert (Hlen : 0 < arrayLength (sovereignPool COUNTRIES)).
  { pose proof (arrayLength_nonneg (sovereignPool COUNTRIES)).
    pose proof (arrayLength_zero (sovereignPool COUNTRIES)) as Hz.
    destruct (Z.eq_dec (arrayLength (sovereignPool COUNTRIES)) 0) as [H0|H0];
      [apply Hz in H0; contradiction|lia]. }
  pose proof (Z.mod_pos_bound n _ Hlen) as Hbound.
  split; [|exact Hbound].
  unfold dailyCountryOn, jsRem.
  destruct (arrayLength (sovereignPool COUNTRIES) =? 0) eqn:H0;
    [apply Z.eqb_eq in H0; lia|].
  rewrite Z.rem_mod_nonneg by lia.
  apply arrayGet_nth_error. lia.
Qed.

(** C3. The daily puzzle is taken from the reference list filtered to
    its Sovereign entries, kept in the order of the list, at the index
    [n mod (pool length)] for the day number [n]; it depends on nothing
    but [n] and that pool, and it is always a Sovereign entry of the
    reference list. *)
Theorem getDailyCountry_sovereign_by_day (COUNTRIES : list Country) :
  (forall c : Country,
      In c (sovereignPool COUNTRIES) <-> In c COUNTRIES /\ type c = Sovereign)
  /\ (forall front back : list Country,
      COUNTRIES = front ++ back ->
      sovereignPool COUNTRIES = sovereignPool front ++ sovereignPool back)
  /\ (forall n : Z,
      0 <= n -> sovereignPool COUNTRIES <> [] ->
      exists c : Country,
        dailyCountryOn COUNTRIES n = Some c
        /\ nth_error (sovereignPool COUNTRIES)
             (Z.to_nat (n mod arrayLength (sovereignPool COUNTRIES))) = Some c
        /\ type c = Sovereign /\ In c COUNTRIES)
  /\ (forall londonDate : CalendarDate,
      getDailyCountry COUNTRIES londonDate
      = dailyCountryOn COUNTRIES (getDayNumber londonDate)
      /\ (sovereignPool COUNTRIES <> [] ->
          exists c : Country,
            getDailyCountry COUNTRIES londonDate = Some c
            /\ type c = Sovereign))
  /\ (forall (OTHER : list Country) (n : Z),
      sovereignPool OTHER = sovereignPool COUNTRIES ->
      dailyCountryOn OTHER n = dailyCountryOn COUNTRIES n).
Proof.
  assert (Hpick : forall n : Z,
      0 <= n -> sovereignPool COUNTRIES <> [] ->
      exists c : Country,
        dailyCountryOn COUNTRIES n = Some c
        /\ nth_error (sovereignPool COUNTRIES)
             (Z.to_nat (n mod arrayLength (sovereignPool COUNTRIES))) = Some c
        /\ type c = Sovereign /\ In c COUNTRIES).
  { intros n Hn Hpool.
    destruct (dailyCountryOn_index COUNTRIES n Hn Hpool) as [Heq Hrange].
    destruct (arrayGet_in_range (sovereignPool COUNTRIES) _ Hrange) as [c Hc].
    rewrite arrayGet_nth_error in Hc by lia.
    exists c. rewrite Heq.
    split; [exact Hc|]. split; [exact Hc|].
    apply nth_error_In in Hc. apply sovereignPool_In in Hc.
    destruct Hc as [Hin Hsov]. split; assumption. }
  split; [apply sovereignPool_In|].
  split.
  { intros front back ->. unfold sovereignPool. apply filter_app. }
  split; [exact Hpick|].
  split.
  - intros londonDate. split; [reflexivity|].
    intros Hpool.
    assert (Hday : 0 <= getDayNumber londonDate).
    { rewrite getDayNumber_abs. apply Z.abs_nonneg. }
    destruct (Hpick (getDayNumber londonDate) Hday Hpool) as [c [Hc [_ [Hsov _]]]].
    exists c. split; [exact Hc|exact Hsov].
  - intros OTHER n Hsame. unfold dailyCountryOn. rewrite Hsame. reflexivity.
Qed.

Lemma getDailyCountry_sovereign_by_day_witness :
  sovereignPool sampleCountries = [France; Fiji]
  /\ (exists c : Country,
         dailyCountryOn sampleCountries 43 = Some c
         /\ nth_error (sovereignPool sampleCountries)
              (Z.to_nat (43 mod arrayLength (sovereignPool sampleCountries)))
            = Some c
         /\ type c = Sovereign /\ In c sampleCountries)
  /\ dailyCountryOn sampleCountries 43 = Some Fiji.
Proof.
  split; [reflexivity|].
  split; [|reflexivity].
  apply (proj1 (proj2 (proj2 (getDailyCountry_sovereign_by_day sampleCountries)))).
  - lia.
  - discriminate.
Defined.

(** ** The random puzzle *)

Lemma randomIndex_range (r : Q) (len : Z) :
  (0 <= r)%Q -> (r < 1)%Q -> 0 < len ->
  0 <= randomIndex r len < len.
Proof.
  intros Hr0 Hr1 Hlen. unfold randomIndex.
  assert (HlenQ : (0 < inject_Z len)%Q).
  { change 0%Q with (inject_Z 0). rewrite <- Zlt_Qlt. exact Hlen. }
  split.
  - rewrite <- (Qfloor_Z 0) at 1.
    apply Qfloor_resp_le. change (inject_Z 0) with 0%Q.
    apply Qmult_le_0_compat; [exact Hr0|apply Qlt_le_weak; exact HlenQ].
  - rewrite Zlt_Qlt.
    apply Qle_lt_trans with (y := (r * inject_Z len)%Q); [apply Qfloor_le|].
    rewrite <- (Qmult_1_l (inject_Z len)) at 2.
    apply Qmult_lt_compat_r; assumption.
Qed.

Lemma randomIndex_empty (r : Q) : randomIndex r 0 = 0.
Proof.
  unfold randomIndex.
  rewrite (Qfloor_comp (r * inject_Z 0) (inject_Z 0)).
  - apply Qfloor_Z.
  - change (inject_Z 0) with 0%Q. apply Qmult_0_r.
Qed.

(** Each index of a non-empty array is drawn by some value of
    [Math.random()]. *)
Lemma randomIndex_hits (i : nat) (len : Z) :
  (Z.of_nat i < len) ->
  exists r : Q, (0 <= r)%Q /\ (r < 1)%Q /\ randomIndex r len = Z.of_nat i.
Proof.
  intros Hi.
  assert (Hlen : 0 < len) by lia.
  exists (Z.of_nat i # Z.to_pos len).
  split; [|split].
  - unfold Qle. simpl. lia.
  - unfold Qlt. simpl. rewrite Z2Pos.id by exact Hlen. lia.
  - unfold randomIndex.
    rewrite (Qfloor_comp _ (inject_Z (Z.of_nat i))); [apply Qfloor_Z|].
    unfold Qeq, Qmult, inject_Z. simpl.
    rewrite Pos.mul_1_r, Z2Pos.id by exact Hlen. lia.
Qed.

Lemma Continent_eqb_eq (a b : Continent) : Continent_eqb a b = true <-> a = b.
Proof. destruct a, b; simpl; split; congruence. Qed.

Lemma Difficulty_eqb_eq (a b : Difficulty) : Difficulty_eqb a b = true <-> a = b.
Proof. destruct a, b; simpl; split; congruence. Qed.

Lemma CountryType_eqb_eq (a b : CountryType) : CountryType_eqb a b = true <-> a = b.
Proof. destruct a, b; simpl; split; congruence. Qed.

Lemma truthy_spec (excludeCode : option string) :
  truthy excludeCode = true <-> exists e, excludeCode = Some e /\ e <> "".
Proof.
  destruct excludeCode as [e|]; simpl.
  - rewrite negb_true_iff, String.eqb_neq. split.
    + intros He. exists e. split; [reflexivity|exact He].
    + intros [e' [[= <-] He]]. exact He.
  - split; [discriminate|]. intros [e [[=] _]].
Qed.

(** The pool is the conjunction of the active filters and the exclusion. *)
Lemma filteredPool_In (COUNTRIES : list Country) (f : GameFilter.t)
      (excludeCode : option string) (c : Country) :
  In c (filteredPool COUNTRIES f excludeCode)
  <-> In c COUNTRIES
      /\ (GameFilter.continent f = All \/ continent c = GameFilter.continent f)
      /\ (GameFilter.difficulty f = Mixed
          \/ GameFilter.difficulty f = OnlyDifficulty (difficulty c))
      /\ (GameFilter.type f = AllTypes
          \/ GameFilter.type f = OnlyType (type c))
      /\ (forall e : string, excludeCode = Some e -> e <> "" -> code c <> e).
Proof.
  destruct f as [fc fd ft]. unfold filteredPool. cbn [GameFilter.continent
    GameFilter.difficulty GameFilter.type].
  assert (Hex : forall pool : list Country,
    In c (if truthy excludeCode then filter (codeDiffers excludeCode) pool else pool)
    <-> In c pool
        /\ (forall e : string, excludeCode = Some e -> e <> "" -> code c <> e)).
  { intros pool. destruct (truthy excludeCode) eqn:Htruthy.
    - apply truthy_spec in Htruthy. destruct Htruthy as [e [-> He]].
      rewrite filter_In. unfold codeDiffers.
      rewrite negb_true_iff, String.eqb_neq.
      split.
      + intros [Hin Hcode]. split; [exact Hin|]. intros e' [= <-] _. exact Hcode.
      + intros [Hin Hcode]. split; [exact Hin|]. apply Hcode; [reflexivity|exact He].
    - split; [|tauto]. intros Hin. split; [exact Hin|].
      intros e -> He.
      assert (Ht : truthy (Some e) = true)
        by (apply truthy_spec; exists e; split; [reflexivity|exact He]).
      congruence. }
  assert (Hty : forall pool : list Country,
    In c (match ft with
          | AllTypes => pool
          | OnlyType t => filter (fun c => CountryType_eqb (type c) t) pool
          end)
    <-> In c pool /\ (ft = AllTypes \/ ft = OnlyType (type c))).
  { intros pool. destruct ft as [|t].
    - split; [intros Hin; split; [exact Hin|left; reflexivity]|tauto].
    - rewrite filter_In, CountryType_eqb_eq. split.
      + intros [Hin <-]. split; [exact Hin|right; reflexivity].
      + intros [Hin [Hno|[= ->]]]; [discriminate|]. split; [exact Hin|reflexivity]. }
  assert (Hdi : forall pool : list Country,
    In c (match fd with
          | Mixed => pool
          | OnlyDifficulty d => filter (fun c => Difficulty_eqb (difficulty c) d) pool
          end)
    <-> In c pool /\ (fd = Mixed \/ fd = OnlyDifficulty (difficulty c))).
  { intros pool. destruct fd as [|d].
    - split; [intros Hin; split; [exact Hin|left; reflexivity]|tauto].
    - rewrite filter_In, Difficulty_eqb_eq. split.
      + intros [Hin <-]. split; [exact Hin|right; reflexivity].
      + intros [Hin [Hno|[= ->]]]; [discriminate|]. split; [exact Hin|reflexivity]. }
  assert (Hco :
    In c (if negb (Continent_eqb fc All)
          then filter (fun c => Continent_eqb (continent c) fc) COUNTRIES
          else COUNTRIES)
    <-> In c COUNTRIES /\ (fc = All \/ continent c = fc)).
  { destruct (Continent_eqb fc All) eqn:Hall; cbn [negb].
    - apply Continent_eqb_eq in Hall.
      split; [intros Hin; split; [exact Hin|left; exact Hall]|tauto].
    - rewrite filter_In, Continent_eqb_eq. split.
      + intros [Hin Heq]. split; [exact Hin|right; exact Heq].
      + intros [Hin [Hno|Heq]]; [|split; assumption].
        apply Continent_eqb_eq in Hno. congruence. }
  rewrite Hex, Hty, Hdi, Hco. tauto.
Qed.

Lemma arrayLength_pos {A : Type} (arr : list A) :
  arr <> [] -> 0 < arrayLength arr.
Proof.
  intros Hne. pose proof (arrayLength_nonneg arr).
  destruct (Z.eq_dec (arrayLength arr) 0) as [H0|H0]; [|lia].
  apply arrayLength_zero in H0. contradiction.
Qed.

(** A draw from a non-empty array is one of its elements. *)
Lemma random_draw (A : Type) (arr : list A) (r : Q) :
  (0 <= r)%Q -> (r < 1)%Q -> arr <> [] ->
  exists x : A, arrayGet arr (randomIndex r (arrayLength arr)) = Some x
                /\ In x arr.
Proof.
  intros Hr0 Hr1 Hne.
  pose proof (randomIndex_range r _ Hr0 Hr1 (arrayLength_pos arr Hne)) as Hrange.
  destruct (arrayGet_in_range arr _ Hrange) as [x Hx].
  exists x. split; [exact Hx|]. apply arrayGet_In in Hx. exact Hx.
Qed.

(** C4. For every filter and optional excluded code, the pool of the
    random puzzle is the reference list narrowed by every active filter
    (continent, difficulty, type) together, with the excluded code taken
    out.  For a draw [r] of [Math.random()] and a reference list that is
    not empty, an empty pool never stops the selection, which then
    returns a country of the whole reference list, and a pool that is
    not empty yields one of its own members. *)
Theorem getRandomCountryFiltered_soft_filter
        (COUNTRIES : list Country) (r : Q) (f : GameFilter.t)
        (excludeCode : option string) :
  (0 <= r)%Q -> (r < 1)%Q -> COUNTRIES <> [] ->
  (forall c : Country,
      In c (filteredPool COUNTRIES f excludeCode)
      <-> In c COUNTRIES
          /\ (GameFilter.continent f = All
              \/ continent c = GameFilter.continent f)
          /\ (GameFilter.difficulty f = Mixed
              \/ GameFilter.difficulty f = OnlyDifficulty (difficulty c))
          /\ (GameFilter.type f = AllTypes
              \/ GameFilter.type f = OnlyType (type c))
          /\ (forall e : string, excludeCode = Some e -> e <> "" -> code c <> e))
  /\ ((forall c : Country, In c COUNTRIES -> code c <> "") ->
      forall c : Country,
        In c (filteredPool COUNTRIES f excludeCode) -> excludeCode <> Some (code c))
  /\ (filteredPool COUNTRIES f excludeCode = [] ->
      exists c : Country,
        getRandomCountryFiltered COUNTRIES r f excludeCode = Some c
        /\ In c COUNTRIES)
  /\ (filteredPool COUNTRIES f excludeCode <> [] ->
      exists c : Country,
        getRandomCountryFiltered COUNTRIES r f excludeCode = Some c
        /\ In c (filteredPool COUNTRIES f excludeCode)).
Proof.
  intros Hr0 Hr1 Hne.
  split; [intros c; apply filteredPool_In|].
  split.
  { intros Hcodes c Hin Hex.
    apply filteredPool_In in Hin.
    destruct Hin as [Hin [_ [_ [_ Hcode]]]].
    apply (Hcode (code c) Hex); [apply Hcodes; exact Hin|reflexivity]. }
  unfold getRandomCountryFiltered.
  split.
  - intros Hempty. rewrite Hempty. cbn [arrayLength List.length Z.of_nat Z.eqb].
    apply random_draw; assumption.
  - intros Hpool.
    destruct (arrayLength (filteredPool COUNTRIES f excludeCode) =? 0) eqn:H0.
    + apply Z.eqb_eq, arrayLength_zero in H0. contradiction.
    + apply random_draw; assumption.
Qed.

Lemma getRandomCountryFiltered_soft_filter_witness :
  (0 <= 1 # 2)%Q /\ (1 # 2 < 1)%Q /\ sampleCountries <> []
  /\ filteredPool sampleCountries
       (GameFilter.mk Africa Mixed AllTypes) (Some "FR") = []
  /\ filteredPool sampleCountries
       (GameFilter.mk Oceania Mixed AllTypes) (Some "FR") = [Guam; Fiji]
  /\ (exists c : Country,
         getRandomCountryFiltered sampleCountries (1 # 2)
           (GameFilter.mk Africa Mixed AllTypes) (Some "FR") = Some c
         /\ In c sampleCountries)
  /\ (exists c : Country,
         getRandomCountryFiltered sampleCountries (1 # 2)
           (GameFilter.mk Oceania Mixed AllTypes) (Some "FR") = Some c
         /\ In c (filteredPool sampleCountries
                    (GameFilter.mk Oceania Mixed AllTypes) (Some "FR"))).
Proof.
  assert (H0 : (0 <= 1 # 2)%Q) by (unfold Qle; simpl; lia).
  assert (H1 : (1 # 2 < 1)%Q) by reflexivity.
  assert (Hne : sampleCountries <> []) by discriminate.
  split; [exact H0|]. split; [exact H1|]. split; [exact Hne|].
  split; [reflexivity|]. split; [reflexivity|].
  split.
  - apply (getRandomCountryFiltered_soft_filter sampleCountries (1 # 2)
             (GameFilter.mk Africa Mixed AllTypes) (Some "FR") H0 H1 Hne).
    reflexivity.
  - apply (getRandomCountryFiltered_soft_filter sampleCountries (1 # 2)
             (GameFilter.mk Oceania Mixed AllTypes) (Some "FR") H0 H1 Hne).
    discriminate.
Defined.

(** C9. When the filtered pool without the excluded code is empty, the
    fallback draws from the whole reference list and does not apply the
    exclusion again: every country of the list can come back, the one
    that carries the excluded code included. *)
Theorem getRandomCountryFiltered_fallback_ignores_exclusion
        (COUNTRIES : list Country) (f : GameFilter.t) (e : string)
        (c : Country) :
  e <> "" -> In c COUNTRIES -> code c = e ->
  filteredPool COUNTRIES f (Some e) = [] ->
  (forall r : Q,
      getRandomCountryFiltered COUNTRIES r f (Some e)
      = arrayGet COUNTRIES (randomIndex r (arrayLength COUNTRIES)))
  /\ (exists r : Q,
         (0 <= r)%Q /\ (r < 1)%Q
         /\ getRandomCountryFiltered COUNTRIES r f (Some e) = Some c).
Proof.
  intros He Hin Hcode Hempty.
  assert (Hfall : forall r : Q,
      getRandomCountryFiltered COUNTRIES r f (Some e)
      = arrayGet COUNTRIES (randomIndex r (arrayLength COUNTRIES))).
  { intros r. unfold getRandomCountryFiltered. rewrite Hempty. reflexivity. }
  split; [exact Hfall|].
  destruct (In_nth_error COUNTRIES c Hin) as [i Hi].
  assert (Hlt : Z.of_nat i < arrayLength COUNTRIES).
  { unfold arrayLength.
    assert (i < List.length COUNTRIES)%nat
      by (apply nth_error_Some; congruence).
    lia. }
  destruct (randomIndex_hits i _ Hlt) as [r [Hr0 [Hr1 Hidx]]].
  exists r. split; [exact Hr0|]. split; [exact Hr1|].
  rewrite Hfall, Hidx, arrayGet_nth_error by lia.
  rewrite Nat2Z.id. exact Hi.
Qed.

Lemma getRandomCountryFiltered_fallback_ignores_exclusion_witness :
  filteredPool sampleCountries
    (GameFilter.mk Oceania Mixed (OnlyType Sovereign)) (Some "FJ") = []
  /\ getRandomCountryFiltered sampleCountries (5 # 6)
       (GameFilter.mk Oceania Mixed (OnlyType Sovereign)) (Some "FJ") = Some Fiji
  /\ (exists r : Q,
         (0 <= r)%Q /\ (r < 1)%Q
         /\ getRandomCountryFiltered sampleCountries r
              (GameFilter.mk Oceania Mixed (OnlyType Sovereign)) (Some "FJ")
            = Some Fiji).
Proof.
  split; [reflexivity|]. split; [reflexivity|].
  apply (getRandomCountryFiltered_fallback_ignores_exclusion sampleCountries
           (GameFilter.mk Oceania Mixed (OnlyType Sovereign)) "FJ" Fiji).
  - discriminate.
  - simpl. right. right. left. reflexivity.
  - reflexivity.
  - reflexivity.
Defined.

(** ** The share text *)

Lemma string_append_assoc (a b c : string) :
  ((a ++ b) ++ c)%string = (a ++ (b ++ c))%string.
Proof.
  induction a as [|x a IH]; simpl; [reflexivity|]. rewrite IH. reflexivity.
Qed.

Lemma string_append_nil_r (a : string) : (a ++ "")%string = a.
Proof.
  induction a as [|x a IH]; simpl; [reflexivity|]. rewrite IH. reflexivity.
Qed.

Lemma appendGuessLine_guessLine (target message guess : string) :
  appendGuessLine target message guess
  = (message ++ guessLine target guess)%string.
Proof.
  unfold guessLine, appendGuessLine.
  destruct (toLowerCase guess =? toLowerCase target)%string; reflexivity.
Qed.

(** The [forEach] loop appends one line per guess, in the order of the
    guesses. *)
Lemma fold_appendGuessLine (target : string) (gs : list string) (message : string) :
  fold_left (appendGuessLine target) gs message
  = (message ++ joinAll (map (guessLine target) gs))%string.
Proof.
  revert message.
  induction gs as [|g gs IH]; intros message; simpl.
  - symmetry. apply string_append_nil_r.
  - rewrite IH, appendGuessLine_guessLine. apply string_append_assoc.
Qed.

Lemma guessLine_cases (target guess : string) :
  (toLowerCase guess = toLowerCase target ->
   guessLine target guess = (successMarker ++ nl)%string)
  /\ (toLowerCase guess <> toLowerCase target ->
      guessLine target guess = (failureMarker ++ nl)%string).
Proof.
  unfold guessLine, appendGuessLine. split.
  - intros Heq. apply String.eqb_eq in Heq. rewrite Heq. reflexivity.
  - intros Hne. apply String.eqb_neq in Hne. rewrite Hne. reflexivity.
Qed.

(** C6. The share text is the title line, the outcome line, one result
    line per guess in the order of the guesses, and the fixed footer
    with the link at the end; the line of a guess is the success marker
    exactly when the guess equals the target name after lower-casing
    both, and the failure marker otherwise.  On Basic Latin texts that
    is equality up to the case of the letters.  For a daily win on day
    42 with the guesses Spain, Germany, France and the target France,
    the title line contains 42, the outcome line contains 3/6, and the
    three result lines are failure, failure, success. *)
Theorem generateShareGrid_layout :
  (forall (londonDate : CalendarDate) (gs : list string) (target : string)
          (isWin isInfinite : bool),
      generateShareGrid londonDate gs target isWin isInfinite
      = (titleLine (getDayNumber londonDate) isInfinite
         ++ outcomeLine (if isWin then numberToString (arrayLength gs) else "X")
                        isWin
         ++ joinAll (map (guessLine target) gs)
         ++ footer)%string)
  /\ (forall target guess : string,
      (guessLine target guess = (successMarker ++ nl)%string
       <-> toLowerCase guess = toLowerCase target)
      /\ (guessLine target guess = (failureMarker ++ nl)%string
          <-> toLowerCase guess <> toLowerCase target))
  /\ (foldsBasicLatin toLowerCase ->
      (forall target guess : string,
          isAscii guess = true -> isAscii target = true ->
          (guessLine target guess = (successMarker ++ nl)%string
           <-> sameIgnoringCase guess target = true))
      /\ (forall londonDate : CalendarDate,
          getDayNumber londonDate = 42 ->
          splitLines
            (generateShareGrid londonDate ["Spain"; "Germany"; "France"]
                               "France" true false)
          = ["🌍 Shapely No. 42 📍";
             "Wow! 🌈 I guessed the right country in 3/6 tries! 🏆✨";
             "";
             failureMarker; failureMarker; successMarker;
             "";
             "Come play this game too! 🗺️⚡🚀";
             "https://geoshapely.netlify.app/"]
          /\ includes "🌍 Shapely No. 42 📍" "42" = true
          /\ includes "Wow! 🌈 I guessed the right country in 3/6 tries! 🏆✨"
                      "3/6"
             = true)).
Proof.
  assert (Hmarker : forall target guess : string,
      (guessLine target guess = (successMarker ++ nl)%string
       <-> toLowerCase guess = toLowerCase target)
      /\ (guessLine target guess = (failureMarker ++ nl)%string
          <-> toLowerCase guess <> toLowerCase target)).
  { intros target guess.
    destruct (guessLine_cases target guess) as [Hyes Hno].
    destruct (String.eqb_spec (toLowerCase guess) (toLowerCase target))
      as [Heq|Hne].
    + split; split; intros H; try assumption; try (apply Hyes; assumption).
      * rewrite (Hyes Heq) in H. vm_compute in H. discriminate.
      * contradiction.
    + split; split; intros H; try assumption; try (apply Hno; assumption).
      * rewrite (Hno Hne) in H. vm_compute in H. discriminate.
      * contradiction. }
  split; [|split; [exact Hmarker|]].
  - intros londonDate gs target isWin isInfinite.
    unfold generateShareGrid, shareGridOn.
    rewrite fold_appendGuessLine, !string_append_assoc. reflexivity.
  - intros Hfold. split.
    + intros target guess Hguess Htarget.
      rewrite (proj1 (Hmarker target guess)).
      apply toLowerCase_same; assumption.
    + intros londonDate Hday. unfold generateShareGrid. rewrite Hday.
      unfold shareGridOn. cbn [fold_left]. unfold appendGuessLine.
      rewrite !Hfold by reflexivity.
      split; [|split]; vm_compute; reflexivity.
Qed.

(** C7. The share text depends on its arguments and on the day number
    alone: two calls with the same guesses, target name, win flag and
    mode flag, made on dates with the same day number, return the same
    text, and a text in infinite mode does not depend on the date. *)
Theorem generateShareGrid_deterministic
        (d1 d2 : CalendarDate) (gs : list string) (target : string)
        (isWin isInfinite : bool) :
  (getDayNumber d1 = getDayNumber d2 ->
   generateShareGrid d1 gs target isWin isInfinite
   = generateShareGrid d2 gs target isWin isInfinite)
  /\ generateShareGrid d1 gs target isWin true
     = generateShareGrid d2 gs target isWin true
  /\ generateShareGrid d1 gs target isWin isInfinite
     = shareGridOn (getDayNumber d1) gs target isWin isInfinite.
Proof.
  split; [|split].
  - intros Hday. unfold generateShareGrid. rewrite Hday. reflexivity.
  - reflexivity.
  - reflexivity.
Qed.


(** ** The compass arrow *)

(** Whatever the bearing, also when it is not a number, the chain of
    comparisons ends in one of the eight arrows. *)
Lemma arrowOfBearing_total (brng : option Q) :
  In (arrowOfBearing brng) compassArrows.
Proof.
  unfold arrowOfBearing, compassArrows.
  repeat match goal with
         | |- context [if ?b then _ else _] => destruct b
         end; simpl; tauto.
Qed.

(** The arrow of the first octant is the answer exactly on the bearings
    from 337.5 up and those below 22.5. *)
Lemma arrowOfBearing_north (q : Q) :
  arrowOfBearing (Some q) = nth 0 compassArrows ""
  <-> (675 # 2 <= q)%Q \/ (q < 45 # 2)%Q.
Proof.
  unfold arrowOfBearing, geqNumber, ltNumber.
  destruct (Qle_bool (675 # 2) q) eqn:H675.
  { simpl. split; [intros _; left; apply Qle_bool_iff; exact H675|reflexivity]. }
  destruct (Qle_bool (45 # 2) q) eqn:H45.
  - assert (Hge : (45 # 2 <= q)%Q) by (apply Qle_bool_iff; exact H45).
    assert (Hlt : ~ (675 # 2 <= q)%Q)
      by (intros H; apply Qle_bool_iff in H; congruence).
    cbn [negb orb andb].
    split.
    + intros Harrow. exfalso.
      repeat match type of Harrow with
             | context [Qle_bool ?bound q] => destruct (Qle_bool bound q)
             end; vm_compute in Harrow; discriminate.
    + intros [H|H]; [contradiction|].
      exfalso. apply (Qlt_not_le _ _ H). exact Hge.
  - cbn [negb orb]. split; [|reflexivity].
    intros _. right. apply Qnot_le_lt. intros H.
    apply Qle_bool_iff in H. congruence.
Qed.


(** * Further properties *)

(** ** The day index, continued *)

Lemma getDayNumber_before_epoch_witness :
  validDate (mkDate 2023 12 30)
  /\ dateLeb epoch (mkDate 2023 12 30) = false
  /\ getDayNumber (mkDate 2023 12 30) = 2
  /\ getDayNumber (nextDay (mkDate 2023 12 30))
     = getDayNumber (mkDate 2023 12 30) - 1.
Proof.
  assert (Hvalid : validDate (mkDate 2023 12 30))
    by (vm_compute; intuition discriminate).
  split; [exact Hvalid|]. split; [reflexivity|]. split; [reflexivity|].
  apply (getDayNumber_before_epoch (mkDate 2023 12 30) Hvalid). reflexivity.
Defined.

Lemma getDayNumber_days_later_witness :
  validDate (mkDate 2024 12 25)
  /\ Nat.iter 10 nextDay (mkDate 2024 12 25) = mkDate 2025 1 4
  /\ getDayNumber (Nat.iter 10 nextDay (mkDate 2024 12 25))
     = getDayNumber (mkDate 2024 12 25) + Z.of_nat 10.
Proof.
  assert (Hvalid : validDate (mkDate 2024 12 25))
    by (vm_compute; intuition discriminate).
  split; [exact Hvalid|]. split; [reflexivity|].
  apply (getDayNumber_days_later 10 (mkDate 2024 12 25) Hvalid). reflexivity.
Defined.

Lemma DaysBeforeMonth_next (y m1 m2 : Z) :
  1 <= m1 -> m1 < m2 -> m2 <= 12 ->
  DaysBeforeMonth y m1 + DaysInMonth y m1 <= DaysBeforeMonth y m2.
Proof.
  intros H1 H12 H2.
  assert (Hc1 : 1 <= m1 <= 12) by lia.
  assert (Hc2 : 1 <= m2 <= 12) by lia.
  destruct (month_cases m1 Hc1) as
    [-> | [-> | [-> | [-> | [-> | [-> | [-> | [-> | [-> | [-> | [-> | ->]]]]]]]]]]];
  destruct (month_cases m2 Hc2) as
    [-> | [-> | [-> | [-> | [-> | [-> | [-> | [-> | [-> | [-> | [-> | ->]]]]]]]]]]];
    try lia;
    unfold DaysInMonth, DaysBeforeMonth; simpl; destruct (InLeapYear y); lia.
Qed.

(** An earlier date of the calendar has a smaller day count. *)
Lemma MakeDay_lt (a b : CalendarDate) :
  validDate a -> validDate b -> dateLt a b -> MakeDay a < MakeDay b.
Proof.
  destruct a as [ya ma da], b as [yb mb db].
  unfold validDate, dateLt, MakeDay. cbn [year month day].
  intros [Hma Hda] [Hmb Hdb] Hlt.
  destruct Hlt as [Hy | [-> [Hm | [-> Hd]]]].
  - pose proof (month_ends_in_year ya ma Hma) as Hend.
    pose proof (DayFromYear_succ ya) as Hsucc.
    assert (Hy1 : ya + 1 <= yb) by lia.
    pose proof (DayFromYear_mono (ya + 1) yb Hy1) as Hmono.
    pose proof (DaysBeforeMonth_bounds yb mb) as Hb.
    destruct (InLeapYear ya); lia.
  - pose proof (DaysBeforeMonth_next yb ma mb) as Hnext. lia.
  - lia.
Qed.

Lemma dateLt_trichotomy (a b : CalendarDate) :
  dateLt a b \/ a = b \/ dateLt b a.
Proof.
  destruct a as [ya ma da], b as [yb mb db]. unfold dateLt. cbn [year month day].
  destruct (Z.lt_trichotomy ya yb) as [H|[H|H]]; [left; lia| |right; right; lia].
  destruct (Z.lt_trichotomy ma mb) as [H1|[H1|H1]]; [left; lia| |right; right; lia].
  destruct (Z.lt_trichotomy da db) as [H2|[H2|H2]]; [left; lia| |right; right; lia].
  right. left. subst. reflexivity.
Qed.

Lemma MakeDay_injective (a b : CalendarDate) :
  validDate a -> validDate b -> MakeDay a = MakeDay b -> a = b.
Proof.
  intros Ha Hb Heq.
  destruct (dateLt_trichotomy a b) as [Hlt|[Hsame|Hgt]]; [|exact Hsame|].
  - pose proof (MakeDay_lt a b Ha Hb Hlt). lia.
  - pose proof (MakeDay_lt b a Hb Ha Hgt). lia.
Qed.

(** X3. Two dates of the calendar share a day number exactly when they are
    the same date or lie at the same distance before and after the
    epoch; from the epoch on, each date has a day number of its own. *)
Theorem getDayNumber_collisions (a b : CalendarDate) :
  validDate a -> validDate b ->
  (getDayNumber a = getDayNumber b
   <-> a = b \/ MakeDay a - MakeDay epoch = MakeDay epoch - MakeDay b)
  /\ (dateLeb epoch a = true -> dateLeb epoch b = true ->
      getDayNumber a = getDayNumber b -> a = b).
Proof.
  intros Ha Hb. rewrite !getDayNumber_abs. split.
  - split.
    + intros Heq.
      destruct (Z.eq_dec (MakeDay a) (MakeDay b)) as [Hsame|Hdiff].
      * left. apply MakeDay_injective; assumption.
      * right. lia.
    + intros [->|Hmirror]; [reflexivity|lia].
  - intros Hafter_a Hafter_b Heq.
    pose proof (MakeDay_from_epoch a Ha Hafter_a).
    pose proof (MakeDay_from_epoch b Hb Hafter_b).
    apply MakeDay_injective; [assumption|assumption|lia].
Qed.

Lemma getDayNumber_collisions_witness :
  validDate (mkDate 2023 12 25) /\ validDate (mkDate 2024 1 8)
  /\ getDayNumber (mkDate 2023 12 25) = getDayNumber (mkDate 2024 1 8).
Proof.
  assert (Ha : validDate (mkDate 2023 12 25))
    by (vm_compute; intuition discriminate).
  assert (Hb : validDate (mkDate 2024 1 8))
    by (vm_compute; intuition discriminate).
  split; [exact Ha|]. split; [exact Hb|].
  apply (proj1 (getDayNumber_collisions _ _ Ha Hb)). right. reflexivity.
Defined.

(** ** The daily puzzle, continued *)

(** For a day number that is not negative the choice is the entry at
    [n mod length], and it is missing only when the pool is empty. *)
Lemma dailyCountryOn_nth (COUNTRIES : list Country) (n : Z) :
  0 <= n ->
  dailyCountryOn COUNTRIES n
  = if arrayLength (sovereignPool COUNTRIES) =? 0 then None
    else nth_error (sovereignPool COUNTRIES)
           (Z.to_nat (n mod arrayLength (sovereignPool COUNTRIES))).
Proof.
  intros Hn.
  destruct (arrayLength (sovereignPool COUNTRIES) =? 0) eqn:H0.
  - unfold dailyCountryOn, jsRem. rewrite H0. reflexivity.
  - apply Z.eqb_neq in H0.
    apply dailyCountryOn_index; [exact Hn|].
    intros Hnil. apply H0. apply arrayLength_zero. exact Hnil.
Qed.

(** X4. The daily puzzle comes round again after as many days as there are
    Sovereign entries. *)
Theorem dailyCountryOn_periodic (COUNTRIES : list Country) (n k : Z) :
  0 <= n -> 0 <= k ->
  dailyCountryOn COUNTRIES (n + k * arrayLength (sovereignPool COUNTRIES))
  = dailyCountryOn COUNTRIES n.
Proof.
  intros Hn Hk.
  pose proof (arrayLength_nonneg (sovereignPool COUNTRIES)) as Hlen.
  rewrite !dailyCountryOn_nth by nia.
  destruct (arrayLength (sovereignPool COUNTRIES) =? 0); [reflexivity|].
  rewrite Z_mod_plus_full. reflexivity.
Qed.

Lemma dailyCountryOn_periodic_witness :
  dailyCountryOn sampleCountries (5 + 3 * arrayLength (sovereignPool sampleCountries))
  = dailyCountryOn sampleCountries 5.
Proof.
  apply (dailyCountryOn_periodic sampleCountries 5 3); lia.
Defined.

(** X5. Every Sovereign entry of the list has its day in each run of as
    many days as there are Sovereign entries. *)
Theorem dailyCountryOn_covers (COUNTRIES : list Country) (c : Country)
        (start : Z) :
  In c COUNTRIES -> type c = Sovereign -> 0 <= start ->
  exists n : Z,
    start <= n < start + arrayLength (sovereignPool COUNTRIES)
    /\ dailyCountryOn COUNTRIES n = Some c.
Proof.
  intros Hin Hsov Hstart.
  assert (Hpool : In c (sovereignPool COUNTRIES))
    by (apply sovereignPool_In; split; assumption).
  destruct (In_nth_error _ _ Hpool) as [i Hi].
  assert (Hilt : (i < List.length (sovereignPool COUNTRIES))%nat)
    by (apply nth_error_Some; congruence).
  set (len := arrayLength (sovereignPool COUNTRIES)).
  assert (Hlen : 0 < len) by (unfold len, arrayLength; lia).
  assert (Hi' : 0 <= Z.of_nat i < len) by (unfold len, arrayLength; lia).
  exists (start + (Z.of_nat i - start) mod len).
  pose proof (Z.mod_pos_bound (Z.of_nat i - start) len Hlen) as Hbound.
  split; [lia|].
  rewrite dailyCountryOn_nth by lia. fold len.
  destruct (len =? 0) eqn:H0; [apply Z.eqb_eq in H0; lia|].
  rewrite Zplus_mod_idemp_r.
  replace (start + (Z.of_nat i - start)) with (Z.of_nat i) by lia.
  rewrite Z.mod_small by exact Hi'.
  rewrite Nat2Z.id. exact Hi.
Qed.

Lemma dailyCountryOn_covers_witness :
  exists n : Z,
    100 <= n < 100 + arrayLength (sovereignPool sampleCountries)
    /\ dailyCountryOn sampleCountries n = Some Fiji.
Proof.
  apply (dailyCountryOn_covers sampleCountries Fiji 100).
  - simpl. right. right. left. reflexivity.
  - reflexivity.
  - lia.
Defined.

Lemma mod_differs_in_window (n1 n2 len : Z) :
  0 < len -> n1 < n2 -> n2 < n1 + len -> n1 mod len <> n2 mod len.
Proof.
  intros Hlen H12 H21 Heq.
  pose proof (Z.div_mod n1 len) as E1.
  pose proof (Z.div_mod n2 len) as E2.
  assert (Hd : n2 - n1 = len * (n2 / len - n1 / len)) by lia.
  assert (Hq : 0 < n2 / len - n1 / len < 1) by nia.
  lia.
Qed.

(** X6. When no entry occurs twice among the Sovereign entries, no country
    is the daily puzzle twice within a run of that many days. *)
Theorem dailyCountryOn_no_repeat (COUNTRIES : list Country) (n1 n2 : Z) :
  NoDup (sovereignPool COUNTRIES) ->
  0 <= n1 -> n1 < n2 ->
  n2 < n1 + arrayLength (sovereignPool COUNTRIES) ->
  dailyCountryOn COUNTRIES n1 <> dailyCountryOn COUNTRIES n2.
Proof.
  intros Hnodup Hn1 H12 H21.
  rewrite !dailyCountryOn_nth by lia.
  assert (Hlen : 0 < arrayLength (sovereignPool COUNTRIES)) by lia.
  destruct (arrayLength (sovereignPool COUNTRIES) =? 0) eqn:H0;
    [apply Z.eqb_eq in H0; lia|].
  pose proof (Z.mod_pos_bound n1 _ Hlen) as Hb1.
  pose proof (Z.mod_pos_bound n2 _ Hlen) as Hb2.
  intros Heq.
  apply (mod_differs_in_window n1 n2 _ Hlen H12 H21).
  rewrite NoDup_nth_error in Hnodup.
  apply Hnodup in Heq.
  - apply Z2Nat.inj in Heq; lia.
  - unfold arrayLength in *. lia.
Qed.

Lemma dailyCountryOn_no_repeat_witness :
  NoDup (sovereignPool sampleCountries)
  /\ dailyCountryOn sampleCountries 42 <> dailyCountryOn sampleCountries 43.
Proof.
  assert (Hnodup : NoDup (sovereignPool sampleCountries)).
  { change (sovereignPool sampleCountries) with [France; Fiji].
    constructor.
    - simpl. intros [H|[]]. discriminate.
    - constructor; [simpl; tauto|constructor]. }
  split; [exact Hnodup|].
  apply (dailyCountryOn_no_repeat sampleCountries 42 43 Hnodup); simpl; lia.
Defined.

(** X7. [getDailyCountry] returns [undefined] exactly when the list has no
    Sovereign entry, whatever the date. *)
Theorem getDailyCountry_undefined (COUNTRIES : list Country)
        (londonDate : CalendarDate) :
  getDailyCountry COUNTRIES londonDate = None
  <-> (forall c : Country, In c COUNTRIES -> type c = Territory).
Proof.
  unfold getDailyCountry.
  assert (Hday : 0 <= getDayNumber londonDate)
    by (rewrite getDayNumber_abs; apply Z.abs_nonneg).
  rewrite dailyCountryOn_nth by exact Hday.
  split.
  - intros Hnone c Hin.
    destruct (type c) eqn:Htype; [|reflexivity]. exfalso.
    assert (Hpool : In c (sovereignPool COUNTRIES))
      by (apply sovereignPool_In; split; assumption).
    destruct (arrayLength (sovereignPool COUNTRIES) =? 0) eqn:H0.
    + apply Z.eqb_eq, arrayLength_zero in H0. rewrite H0 in Hpool. exact Hpool.
    + apply Z.eqb_neq in H0.
      assert (Hlen : 0 < arrayLength (sovereignPool COUNTRIES))
        by (pose proof (arrayLength_nonneg (sovereignPool COUNTRIES)); lia).
      pose proof (Z.mod_pos_bound (getDayNumber londonDate) _ Hlen) as Hb.
      apply nth_error_None in Hnone. unfold arrayLength in *. lia.
  - intros Hall.
    assert (Hnil : sovereignPool COUNTRIES = []).
    { destruct (sovereignPool COUNTRIES) as [|c pool] eqn:Hpool; [reflexivity|].
      assert (Hc : In c (sovereignPool COUNTRIES)) by (rewrite Hpool; left; reflexivity).
      apply sovereignPool_In in Hc. destruct Hc as [Hin Hsov].
      apply Hall in Hin. congruence. }
    rewrite Hnil. reflexivity.
Qed.

(** ** The random puzzle, continued *)

(** X8. When the filtered pool is not empty, every entry of it can be
    the result: for each entry some draw below 1 returns it, so no
    country that passes the filters is left out of the game. *)
Theorem getRandomCountryFiltered_reaches_pool
        (COUNTRIES : list Country) (f : GameFilter.t)
        (excludeCode : option string) (c : Country) :
  In c (filteredPool COUNTRIES f excludeCode) ->
  exists r : Q,
    (0 <= r)%Q /\ (r < 1)%Q
    /\ getRandomCountryFiltered COUNTRIES r f excludeCode = Some c.
Proof.
  intros Hin.
  assert (Hpool : filteredPool COUNTRIES f excludeCode <> [])
    by (intros Hnil; rewrite Hnil in Hin; exact Hin).
  pose proof (arrayLength_pos _ Hpool) as Hlen.
  destruct (In_nth_error _ _ Hin) as [i Hi].
  assert (Hilt : (i < List.length (filteredPool COUNTRIES f excludeCode))%nat)
    by (apply nth_error_Some; congruence).
  assert (Hlt : Z.of_nat i < arrayLength (filteredPool COUNTRIES f excludeCode))
    by (unfold arrayLength; lia).
  destruct (randomIndex_hits i _ Hlt) as [r [Hr0 [Hr1 Hidx]]].
  exists r. split; [exact Hr0|]. split; [exact Hr1|].
  unfold getRandomCountryFiltered.
  destruct (arrayLength (filteredPool COUNTRIES f excludeCode) =? 0) eqn:H0;
    [apply Z.eqb_eq in H0; lia|].
  rewrite Hidx, arrayGet_nth_error by lia.
  rewrite Nat2Z.id. exact Hi.
Qed.

Lemma getRandomCountryFiltered_reaches_pool_witness :
  exists r : Q,
    (0 <= r)%Q /\ (r < 1)%Q
    /\ getRandomCountryFiltered sampleCountries r
         (GameFilter.mk Oceania Mixed AllTypes) None = Some Fiji.
Proof.
  apply (getRandomCountryFiltered_reaches_pool sampleCountries
           (GameFilter.mk Oceania Mixed AllTypes) None Fiji).
  simpl. right. left. reflexivity.
Defined.

Lemma filteredPool_incl (COUNTRIES : list Country) (f : GameFilter.t)
      (excludeCode : option string) (c : Country) :
  In c (filteredPool COUNTRIES f excludeCode) -> In c COUNTRIES.
Proof. intros Hin. apply filteredPool_In in Hin. tauto. Qed.

(** X9. [getRandomCountryFiltered] returns [undefined] exactly when the
    reference list is empty: no filter, excluded code or draw makes it
    fail on a list that has an entry, and nothing helps on an empty one. *)
Theorem getRandomCountryFiltered_undefined
        (COUNTRIES : list Country) (r : Q) (f : GameFilter.t)
        (excludeCode : option string) :
  (0 <= r)%Q -> (r < 1)%Q ->
  (getRandomCountryFiltered COUNTRIES r f excludeCode = None
   <-> COUNTRIES = []).
Proof.
  intros Hr0 Hr1. split.
  - intros Hnone.
    destruct COUNTRIES as [|c0 rest] eqn:Hlist; [reflexivity|]. exfalso.
    rewrite <- Hlist in *.
    assert (Hne : COUNTRIES <> []) by (rewrite Hlist; discriminate).
    unfold getRandomCountryFiltered in Hnone.
    destruct (arrayLength (filteredPool COUNTRIES f excludeCode) =? 0) eqn:H0.
    + destruct (random_draw _ COUNTRIES r Hr0 Hr1 Hne) as [x [Hx _]]. congruence.
    + assert (Hpool : filteredPool COUNTRIES f excludeCode <> []).
      { intros Hnil. rewrite Hnil in H0. discriminate. }
      destruct (random_draw _ _ r Hr0 Hr1 Hpool) as [x [Hx _]]. congruence.
  - intros ->.
    assert (Hnil : filteredPool [] f excludeCode = []).
    { destruct (filteredPool [] f excludeCode) as [|c pool] eqn:Hp; [reflexivity|].
      assert (Hc : In c (filteredPool [] f excludeCode))
        by (rewrite Hp; left; reflexivity).
      apply filteredPool_incl in Hc. destruct Hc. }
    unfold getRandomCountryFiltered. rewrite Hnil.
    cbn [arrayLength List.length Z.of_nat Z.eqb].
    rewrite randomIndex_empty. reflexivity.
Qed.

Lemma getRandomCountryFiltered_undefined_witness :
  getRandomCountryFiltered [] (1 # 3) (GameFilter.mk Asia (OnlyDifficulty Hard) AllTypes)
    (Some "FR") = None.
Proof.
  apply (getRandomCountryFiltered_undefined [] (1 # 3)
           (GameFilter.mk Asia (OnlyDifficulty Hard) AllTypes) (Some "FR")).
  - unfold Qle. simpl. lia.
  - reflexivity.
  - reflexivity.
Defined.

(** ** The round state machine, continued *)

Lemma fold_submitGuess_finished (target : Country) (gs : list string)
      (st : GameState) :
  isFinished st = true ->
  fold_left (fun s g => submitGuess s target g) gs st = st.
Proof.
  intros Hfin. induction gs as [|g gs IH]; [reflexivity|].
  simpl. unfold submitGuess at 2. rewrite Hfin. exact IH.
Qed.

Lemma consumed_prefix (target : string) (room : nat) (gs : list string) :
  exists rest : list string, gs = consumed target room gs ++ rest.
Proof.
  revert gs. induction room as [|room IH]; intros gs.
  - exists gs. destruct gs; reflexivity.
  - destruct gs as [|g gs]; [exists []; reflexivity|].
    simpl. destruct (hits target g).
    + exists gs. reflexivity.
    + destruct (IH gs) as [rest Hrest]. exists rest. simpl. congruence.
Qed.

Lemma consumed_length (target : string) (room : nat) (gs : list string) :
  (List.length (consumed target room gs) <= room)%nat.
Proof.
  revert gs. induction room as [|room IH]; intros gs; [destruct gs; simpl; lia|].
  destruct gs as [|g gs]; [simpl; lia|].
  simpl. destruct (hits target g); simpl; [lia|].
  specialize (IH gs). lia.
Qed.

(** The run of [submitGuess] from an open round with [room] guesses left
    is the round with the counting guesses appended. *)
Lemma fold_submitGuess_consumed (target : Country) (gs : list string) :
  forall (room : nat) (st : GameState),
    isFinished st = false -> won st = false ->
    (0 < room)%nat ->
    arrayLength (guesses st) + Z.of_nat room = MAX_GUESSES ->
    fold_left (fun s g => submitGuess s target g) gs st
    = mkGameState (date st)
        (guesses st ++ consumed (name target) room gs)
        (existsb (hits (name target)) (consumed (name target) room gs)
         || Nat.eqb (List.length (consumed (name target) room gs)) room)
        (existsb (hits (name target)) (consumed (name target) room gs)).
Proof.
  induction gs as [|g gs IH]; intros room st Hfin Hwon Hroom Hlen.
  - destruct room as [|room]; [lia|].
    destruct st as [d gsst f w]. simpl in *. subst.
    rewrite app_nil_r. reflexivity.
  - destruct room as [|room]; [lia|].
    cbn [fold_left consumed].
    rewrite (submitGuess_open st target g Hfin). fold (hits (name target) g).
    destruct (hits (name target) g) eqn:Hhit.
    + rewrite fold_submitGuess_finished by reflexivity.
      cbn [existsb List.length orb]. rewrite Hhit. reflexivity.
    + cbn [orb existsb List.length]. rewrite Hhit. cbn [orb].
      rewrite arrayLength_app.
      destruct room as [|room].
      * replace (MAX_GUESSES <=? arrayLength (guesses st) + 1) with true
          by (symmetry; apply Z.leb_le; lia).
        rewrite fold_submitGuess_finished by reflexivity.
        destruct gs; reflexivity.
      * replace (MAX_GUESSES <=? arrayLength (guesses st) + 1) with false
          by (symmetry; apply Z.leb_gt; lia).
        rewrite IH with (room := S room).
        -- cbn [date guesses]. rewrite <- app_assoc. reflexivity.
        -- reflexivity.
        -- reflexivity.
        -- lia.
        -- cbn [guesses]. rewrite arrayLength_app. lia.
Qed.

(** X10. A round played from a fresh state is told by the guesses alone: of
    the guesses made, those up to the first hit and no more than six
    are kept, in order; the round is won exactly when one of them hit,
    and finished exactly when it is won or six are kept.  Guesses made
    after that are dropped. *)
Theorem handleGuess_played_round (app : App) (key : string)
        (gs : list string) :
  activeState app = freshState key ->
  let target := name (activeCountry app) in
  activeState (fold_left handleGuess gs app)
  = mkGameState key (consumed target 6 gs)
      (existsb (hits target) (consumed target 6 gs)
       || Nat.eqb (List.length (consumed target 6 gs)) 6)
      (existsb (hits target) (consumed target 6 gs))
  /\ (exists dropped : list string, gs = consumed target 6 gs ++ dropped)
  /\ (List.length (consumed target 6 gs) <= 6)%nat.
Proof.
  intros Hfresh target. subst target.
  split; [|split; [apply consumed_prefix|apply consumed_length]].
  rewrite activeState_fold_handleGuess, Hfresh.
  rewrite (fold_submitGuess_consumed (activeCountry app) gs 6 (freshState key));
    try reflexivity.
  lia.
Qed.


Lemma consumed_shape (target : string) (room : nat) (gs : list string) :
  (existsb (hits target) (consumed target room gs) = true ->
   exists (front : list string) (g : string),
     consumed target room gs = front ++ [g]
     /\ hits target g = true
     /\ Forall (fun x => hits target x = false) front)
  /\ (existsb (hits target) (consumed target room gs) = false ->
      Forall (fun x => hits target x = false) (consumed target room gs)).
Proof.
  revert gs. induction room as [|room IH]; intros gs.
  - destruct gs; simpl; (split; [discriminate|constructor]).
  - destruct gs as [|g gs]; [simpl; split; [discriminate|constructor]|].
    cbn [consumed]. destruct (hits target g) eqn:Hhit.
    + split.
      * intros _. exists [], g. repeat split; [exact Hhit|constructor].
      * cbn [existsb]. rewrite Hhit. discriminate.
    + destruct (IH gs) as [IHwon IHlost]. cbn [existsb]. rewrite Hhit. cbn [orb].
      split.
      * intros Hex. destruct (IHwon Hex) as [front [g' [Heq [Hg' Hfront]]]].
        exists (g :: front), g'. rewrite Heq.
        repeat split; [exact Hg'|constructor; assumption].
      * intros Hex. constructor; [exact Hhit|apply IHlost; exact Hex].
Qed.

(** X11. In a round played from a fresh state, [won] is set only on a
    finished round whose last guess hit the target after misses only;
    a round that is not won holds misses only; the round is finished
    exactly when it is won or holds six guesses; and an open round
    shows between one and six guesses remaining. *)
Theorem handleGuess_round_invariant (app : App) (key : string)
        (gs : list string) :
  activeState app = freshState key ->
  let target := name (activeCountry app) in
  let st := activeState (fold_left handleGuess gs app) in
  (won st = true ->
   isFinished st = true
   /\ exists (front : list string) (g : string),
       guesses st = front ++ [g]
       /\ toLowerCase g = toLowerCase target
       /\ Forall (fun x => toLowerCase x <> toLowerCase target) front)
  /\ (won st = false ->
      Forall (fun x => toLowerCase x <> toLowerCase target) (guesses st))
  /\ (isFinished st = true
      <-> won st = true \/ arrayLength (guesses st) = 6)
  /\ (isFinished st = false ->
      1 <= guessesRemaining (fold_left handleGuess gs app) <= 6).
Proof.
  intros Hfresh target st.
  assert (Hst : st = mkGameState key (consumed target 6 gs)
      (existsb (hits target) (consumed target 6 gs)
       || Nat.eqb (List.length (consumed target 6 gs)) 6)
      (existsb (hits target) (consumed target 6 gs))).
  { subst st target.
    rewrite activeState_fold_handleGuess, Hfresh.
    rewrite (fold_submitGuess_consumed (activeCountry app) gs 6 (freshState key));
      try reflexivity.
    lia. }
  assert (Hmiss : forall l : list string,
             Forall (fun x => hits target x = false) l ->
             Forall (fun x => toLowerCase x <> toLowerCase target) l).
  { intros l Hl. eapply Forall_impl; [|exact Hl].
    intros x Hx. apply String.eqb_neq. exact Hx. }
  destruct (consumed_shape target 6 gs) as [Hwon Hlost].
  pose proof (consumed_length target 6 gs) as Hlen.
  unfold guessesRemaining. fold st. rewrite Hst. cbn [won isFinished guesses].
  split; [|split; [|split]].
  - intros Hex. rewrite Hex. split; [reflexivity|].
    destruct (Hwon Hex) as [front [g [Heq [Hg Hfront]]]].
    exists front, g. split; [exact Heq|].
    split; [apply String.eqb_eq; exact Hg|apply Hmiss; exact Hfront].
  - intros Hex. apply Hmiss, Hlost, Hex.
  - unfold arrayLength. split.
    + intros Hfin. apply orb_true_iff in Hfin.
      destruct Hfin as [Hex|Hsix]; [left; exact Hex|right].
      apply Nat.eqb_eq in Hsix. lia.
    + intros [Hex|Hsix]; apply orb_true_iff; [left; exact Hex|right].
      apply Nat.eqb_eq. lia.
  - intros Hopen. apply orb_false_iff in Hopen. destruct Hopen as [_ Hsix].
    apply Nat.eqb_neq in Hsix. unfold MAX_GUESSES, arrayLength. lia.
Qed.


Lemma fold_handleGuess_frame (gs : list string) (app : App) :
  isInfiniteMode (fold_left handleGuess gs app) = isInfiniteMode app
  /\ dailyCountry (fold_left handleGuess gs app) = dailyCountry app
  /\ infiniteCountry (fold_left handleGuess gs app) = infiniteCountry app
  /\ (if isInfiniteMode app
      then dailyState (fold_left handleGuess gs app) = dailyState app
      else infiniteState (fold_left handleGuess gs app) = infiniteState app).
Proof.
  revert app. induction gs as [|g gs IH]; intros app.
  - simpl. repeat split. destruct (isInfiniteMode app); reflexivity.
  - cbn [fold_left].
    destruct (IH (handleGuess app g)) as [Hmode [Hdaily [Hinf Hother]]].
    rewrite Hmode, Hdaily, Hinf.
    rewrite isInfiniteMode_handleGuess in *.
    destruct (countries_handleGuess app g) as [-> ->].
    repeat split.
    unfold handleGuess in *.
    destruct (isFinished (activeState app)); [exact Hother|].
    destruct (isInfiniteMode app); rewrite Hother; reflexivity.
Qed.

(** ** Infinite mode *)

(** X12. The country of a new infinite round.  When the filter leaves a
    country other than the one on screen, the new one comes from the
    filtered pool and is not the one on screen; when it leaves none, the
    new one is some country of the list, the one on screen not
    excluded. *)
Theorem startInfiniteMode_country
        (COUNTRIES : list Country) (s : Session) (r : Q)
        (filterOverride : option GameFilter.t) :
  (0 <= r)%Q -> (r < 1)%Q ->
  let filter := match filterOverride with
                | Some f => f
                | None => activeFilter s
                end in
  let shown := activeCountry (game s) in
  let next := activeCountry (game (startInfiniteMode COUNTRIES s r filterOverride)) in
  (filteredPool COUNTRIES filter (Some (code shown)) <> [] ->
   In next (filteredPool COUNTRIES filter (Some (code shown)))
   /\ (code shown <> "" -> code next <> code shown))
  /\ (filteredPool COUNTRIES filter (Some (code shown)) = [] ->
      COUNTRIES <> [] -> In next COUNTRIES).
Proof.
  intros Hr0 Hr1 filter shown next.
  assert (Hnext : next
    = match getRandomCountryFiltered COUNTRIES r filter (Some (code shown)) with
      | Some c => c
      | None => dailyCountry (game s)
      end) by reflexivity.
  split.
  - intros Hpool.
    assert (Hin : In next (filteredPool COUNTRIES filter (Some (code shown)))).
    { rewrite Hnext. unfold getRandomCountryFiltered.
      destruct (arrayLength (filteredPool COUNTRIES filter (Some (code shown)))
                =? 0) eqn:H0.
      - apply Z.eqb_eq, arrayLength_zero in H0. contradiction.
      - destruct (random_draw _ _ r Hr0 Hr1 Hpool) as [x [Hx Hxin]].
        rewrite Hx. exact Hxin. }
    split; [exact Hin|].
    intros Hcode. apply filteredPool_In in Hin.
    destruct Hin as [_ [_ [_ [_ Hex]]]].
    apply (Hex (code shown)); [reflexivity|exact Hcode].
  - intros Hpool Hne. rewrite Hnext. unfold getRandomCountryFiltered.
    rewrite Hpool. change (arrayLength (@nil Country) =? 0) with true. cbv iota.
    destruct (random_draw _ COUNTRIES r Hr0 Hr1 Hne) as [x [Hx Hxin]].
    rewrite Hx. exact Hxin.
Qed.

Lemma startInfiniteMode_country_witness :
  activeCountry (game sampleSession) = France
  /\ code (activeCountry
             (game (startInfiniteMode sampleCountries sampleSession (1 # 10)
                      (Some (GameFilter.mk Europe Mixed AllTypes)))))
     = "FR"
  /\ code (activeCountry
             (game (startInfiniteMode sampleCountries sampleSession (1 # 10) None)))
     <> "FR".
Proof.
  split; [reflexivity|]. split; [reflexivity|].
  assert (H0 : (0 <= 1 # 10)%Q) by (unfold Qle; simpl; lia).
  assert (H1 : (1 # 10 < 1)%Q) by reflexivity.
  destruct (startInfiniteMode_country sampleCountries sampleSession (1 # 10)
              None H0 H1) as [Hpool _].
  apply Hpool; discriminate.
Defined.

(** X13. Infinite mode never touches the daily round.  A new infinite round
    starts fresh, whatever the last one held; whatever is guessed in it,
    the daily round and the daily country stay as they were, and going
    back to the daily challenge shows them again. *)
Theorem startInfiniteMode_keeps_daily
        (COUNTRIES : list Country) (s : Session) (r : Q)
        (filterOverride : option GameFilter.t) (gs : list string) :
  let started := game (startInfiniteMode COUNTRIES s r filterOverride) in
  let played := fold_left handleGuess gs started in
  activeState started = freshState "infinite"
  /\ dailyState played = dailyState (game s)
  /\ dailyCountry played = dailyCountry (game s)
  /\ activeState (backToDaily played) = dailyState (game s)
  /\ activeCountry (backToDaily played) = dailyCountry (game s)
  /\ activeFilter (startInfiniteMode COUNTRIES s r filterOverride)
     = activeFilter s.
Proof.
  intros started played.
  destruct (fold_handleGuess_frame gs started) as [Hmode [Hdaily [_ Hother]]].
  change (isInfiniteMode started) with true in Hother.
  cbn match in Hother. fold played in Hother, Hdaily.
  split; [reflexivity|].
  split; [rewrite Hother; reflexivity|].
  split; [rewrite Hdaily; reflexivity|].
  split; [unfold backToDaily, activeState; simpl; rewrite Hother; reflexivity|].
  split; [unfold backToDaily, activeCountry; simpl; rewrite Hdaily; reflexivity|].
  reflexivity.
Qed.

(** ** The day change *)

Lemma getDailyCountry_some (COUNTRIES : list Country) (d : CalendarDate) :
  sovereignPool COUNTRIES <> [] ->
  exists c : Country, getDailyCountry COUNTRIES d = Some c.
Proof.
  intros Hpool.
  assert (Hday : 0 <= getDayNumber d)
    by (rewrite getDayNumber_abs; apply Z.abs_nonneg).
  destruct (dailyCountryOn_index COUNTRIES _ Hday Hpool) as [Heq Hrange].
  destruct (arrayGet_in_range (sovereignPool COUNTRIES) _ Hrange) as [c Hc].
  rewrite arrayGet_nth_error in Hc by lia.
  exists c. unfold getDailyCountry. rewrite Heq. exact Hc.
Qed.

Lemma getDailyCountry_sovereign (COUNTRIES : list Country) (d : CalendarDate)
      (c : Country) :
  getDailyCountry COUNTRIES d = Some c -> In c COUNTRIES /\ type c = Sovereign.
Proof.
  unfold getDailyCountry, dailyCountryOn.
  destruct (jsRem (getDayNumber d) (arrayLength (sovereignPool COUNTRIES)));
    [|discriminate].
  intros Hget. apply arrayGet_In in Hget. apply sovereignPool_In. exact Hget.
Qed.

(** X15. Polling is safe to repeat: once a check has gone through, the
    component is on the day of the clock, and every later check on a
    date with that day number leaves the whole state as it is. *)
Theorem checkDayChange_settles
        (COUNTRIES : list Country) (s s' : Session)
        (clockDay : CalendarDate) (todayLDN : string)
        (clockCountry : CalendarDate) :
  checkDayChange COUNTRIES s clockDay todayLDN clockCountry = Some s' ->
  currentDay s' = getDayNumber clockDay
  /\ (forall (laterDay : CalendarDate) (laterLDN : string)
             (laterCountry : CalendarDate),
         getDayNumber laterDay = getDayNumber clockDay ->
         checkDayChange COUNTRIES s' laterDay laterLDN laterCountry = Some s').
Proof.
  intros Hcheck.
  assert (Hday : currentDay s' = getDayNumber clockDay).
  { unfold checkDayChange in Hcheck.
    destruct (getDayNumber clockDay =? currentDay s) eqn:Hsame; cbn [negb] in Hcheck.
    - injection Hcheck as <-. apply Z.eqb_eq in Hsame. congruence.
    - destruct (getDailyCountry COUNTRIES clockCountry); [|discriminate].
      injection Hcheck as <-. reflexivity. }
  split; [exact Hday|].
  intros laterDay laterLDN laterCountry Hlater.
  unfold checkDayChange. rewrite Hlater, Hday, Z.eqb_refl. reflexivity.
Qed.

Lemma checkDayChange_settles_witness :
  exists s' : Session,
    checkDayChange sampleCountries sampleSession (mkDate 2024 2 13) "2024-02-13"
                   (mkDate 2024 2 13) = Some s'
    /\ currentDay s' = 43
    /\ checkDayChange sampleCountries s' (mkDate 2024 2 13) "2024-02-13"
                      (mkDate 2024 2 13) = Some s'.
Proof.
  eexists. split; [reflexivity|].
  split.
  - apply (checkDayChange_settles sampleCountries sampleSession _
             (mkDate 2024 2 13) "2024-02-13" (mkDate 2024 2 13) eq_refl).
  - apply (checkDayChange_settles sampleCountries sampleSession _
             (mkDate 2024 2 13) "2024-02-13" (mkDate 2024 2 13) eq_refl).
    reflexivity.
Defined.

(** X16. When the clock is on another day than the component and the list
    has a Sovereign entry, the check replaces the daily round by a fresh
    one under the new date text and the daily country by the Sovereign
    country of the date read; an infinite round in progress, its
    country and the mode are kept, and the result panel is closed only
    in daily mode.  When both readings of the clock fall on one day, the
    new daily country is the one of the new current day. *)
Theorem checkDayChange_rollover
        (COUNTRIES : list Country) (s : Session)
        (clockDay : CalendarDate) (todayLDN : string)
        (clockCountry : CalendarDate) :
  getDayNumber clockDay <> currentDay s ->
  sovereignPool COUNTRIES <> [] ->
  exists s' : Session,
    checkDayChange COUNTRIES s clockDay todayLDN clockCountry = Some s'
    /\ dailyState (game s') = freshState todayLDN
    /\ getDailyCountry COUNTRIES clockCountry = Some (dailyCountry (game s'))
    /\ type (dailyCountry (game s')) = Sovereign
    /\ isInfiniteMode (game s') = isInfiniteMode (game s)
    /\ infiniteCountry (game s') = infiniteCountry (game s)
    /\ infiniteState (game s') = infiniteState (game s)
    /\ (if isInfiniteMode (game s)
        then activeState (game s') = activeState (game s)
             /\ isResultOpen s' = isResultOpen s
        else activeState (game s') = freshState todayLDN
             /\ isResultOpen s' = false)
    /\ (getDayNumber clockCountry = getDayNumber clockDay ->
        dailyCountryOn COUNTRIES (currentDay s') = Some (dailyCountry (game s'))).
Proof.
  intros Hday Hpool.
  destruct (getDailyCountry_some COUNTRIES clockCountry Hpool) as [c Hc].
  destruct (getDailyCountry_sovereign COUNTRIES clockCountry c Hc) as [_ Hsov].
  unfold checkDayChange.
  apply Z.eqb_neq in Hday. rewrite Hday, Hc. cbn [negb].
  eexists. split; [reflexivity|].
  cbn [game dailyState dailyCountry isInfiniteMode infiniteCountry
       infiniteState isResultOpen currentDay].
  repeat (split; [first [reflexivity | exact Hsov]|]).
  split.
  - unfold activeState. cbn [isInfiniteMode infiniteState dailyState].
    destruct (isInfiniteMode (game s)); split; reflexivity.
  - intros Hsame. unfold getDailyCountry in Hc. rewrite Hsame in Hc. exact Hc.
Qed.

Lemma checkDayChange_rollover_witness :
  exists s' : Session,
    checkDayChange sampleCountries sampleSession (mkDate 2024 2 13) "2024-02-13"
                   (mkDate 2024 2 13) = Some s'
    /\ dailyState (game s') = freshState "2024-02-13"
    /\ dailyCountry (game s') = Fiji.
Proof.
  assert (Hday : getDayNumber (mkDate 2024 2 13) <> currentDay sampleSession)
    by (vm_compute; discriminate).
  assert (Hpool : sovereignPool sampleCountries <> []) by discriminate.
  destruct (checkDayChange_rollover sampleCountries sampleSession
              (mkDate 2024 2 13) "2024-02-13" (mkDate 2024 2 13) Hday Hpool)
    as [s' [Hcheck [Hstate [Hcountry _]]]].
  exists s'. split; [exact Hcheck|]. split; [exact Hstate|].
  assert (Hfiji : getDailyCountry sampleCountries (mkDate 2024 2 13) = Some Fiji)
    by reflexivity.
  congruence.
Defined.

Lemma date_fold_handleGuess (gs : list string) (app : App) :
  date (activeState (fold_left handleGuess gs app)) = date (activeState app).
Proof.
  revert app. induction gs as [|g gs IH]; intros app; [reflexivity|].
  cbn [fold_left]. rewrite IH, activeState_handleGuess. unfold submitGuess.
  destruct (isFinished (activeState app)); reflexivity.
Qed.

(** X17. The daily round at start-up always carries today's date text.  A
    stored round is taken up again exactly when its date text is
    today's, with all its guesses and flags; a round stored on another
    day, or nothing that parses, gives a fresh round.  So a round played
    from a fresh state under the text [key] comes back as it was stored
    on the day of [key] and is dropped on any other day. *)
Theorem initialDailyState_resumes (todayLDN : string) :
  (forall parsed : option GameState,
      date (initialDailyState parsed todayLDN) = todayLDN)
  /\ (forall stored : GameState,
      date stored = todayLDN ->
      initialDailyState (Some stored) todayLDN = stored)
  /\ (forall stored : GameState,
      date stored <> todayLDN ->
      initialDailyState (Some stored) todayLDN = freshState todayLDN)
  /\ initialDailyState None todayLDN = freshState todayLDN
  /\ (forall (app : App) (key : string) (gs : list string),
      activeState app = freshState key ->
      initialDailyState (Some (activeState (fold_left handleGuess gs app)))
                        todayLDN
      = if (key =? todayLDN)%string
        then activeState (fold_left handleGuess gs app)
        else freshState todayLDN).
Proof.
  assert (Hsame : forall stored : GameState,
      date stored = todayLDN ->
      initialDailyState (Some stored) todayLDN = stored).
  { intros stored Hdate. unfold initialDailyState.
    apply String.eqb_eq in Hdate. rewrite Hdate. reflexivity. }
  assert (Hstale : forall stored : GameState,
      date stored <> todayLDN ->
      initialDailyState (Some stored) todayLDN = freshState todayLDN).
  { intros stored Hdate. unfold initialDailyState.
    apply String.eqb_neq in Hdate. rewrite Hdate. reflexivity. }
  split; [|split; [exact Hsame|split; [exact Hstale|split; [reflexivity|]]]].
  - intros [stored|]; [|reflexivity].
    destruct (String.eqb_spec (date stored) todayLDN) as [Heq|Hne].
    + rewrite Hsame by exact Heq. exact Heq.
    + rewrite Hstale by exact Hne. reflexivity.
  - intros app key gs Hfresh.
    assert (Hdate : date (activeState (fold_left handleGuess gs app)) = key)
      by (rewrite date_fold_handleGuess, Hfresh; reflexivity).
    destruct (String.eqb_spec key todayLDN) as [Heq|Hne].
    + apply Hsame. congruence.
    + apply Hstale. congruence.
Qed.


(** ** The share text, continued *)

Lemma splitLines_oneLine (a : string) :
  oneLine a = true -> splitLines a = [a].
Proof.
  induction a as [|c a IH]; [reflexivity|].
  cbn [oneLine splitLines]. intros H. apply andb_true_iff in H.
  destruct H as [Hc Ha]. apply negb_true_iff in Hc. rewrite Hc, (IH Ha).
  reflexivity.
Qed.

Lemma splitLines_oneLine_nl (a rest : string) :
  oneLine a = true ->
  splitLines (a ++ String (ascii_of_nat 10) rest)%string = a :: splitLines rest.
Proof.
  induction a as [|c a IH]; [reflexivity|].
  cbn [oneLine]. intros H. apply andb_true_iff in H.
  destruct H as [Hc Ha]. apply negb_true_iff in Hc.
  change (String c a ++ String (ascii_of_nat 10) rest)%string
    with (String c (a ++ String (ascii_of_nat 10) rest)%string).
  cbn [splitLines]. rewrite Hc, (IH Ha). reflexivity.
Qed.

Lemma splitLines_line (a rest : string) :
  oneLine a = true ->
  splitLines (a ++ (nl ++ rest))%string = a :: splitLines rest.
Proof. apply splitLines_oneLine_nl. Qed.

Lemma oneLine_app (a b : string) :
  oneLine (a ++ b)%string = oneLine a && oneLine b.
Proof.
  induction a as [|c a IH]; [reflexivity|].
  cbn [append oneLine]. rewrite IH, andb_assoc. reflexivity.
Qed.

Lemma oneLine_string_of_uint (d : Decimal.uint) :
  oneLine (NilEmpty.string_of_uint d) = true.
Proof.
  induction d; cbn [NilEmpty.string_of_uint oneLine]; rewrite ?IHd; reflexivity.
Qed.

Lemma oneLine_numberToString (n : Z) : oneLine (numberToString n) = true.
Proof.
  unfold numberToString.
  destruct (Z.to_int n) as [d|d]; cbn [NilZero.string_of_int].
  - destruct d; try apply oneLine_string_of_uint. reflexivity.
  - cbn [oneLine]. destruct d; try apply oneLine_string_of_uint. reflexivity.
Qed.

Lemma guessLine_marker (target guess : string) :
  guessLine target guess = (markerOf (hits target guess) ++ nl)%string.
Proof.
  unfold guessLine, appendGuessLine, hits, markerOf.
  destruct (toLowerCase guess =? toLowerCase target)%string; reflexivity.
Qed.

Lemma splitLines_guessLines (target : string) (gs : list string) (rest : string) :
  splitLines (joinAll (map (guessLine target) gs) ++ rest)%string
  = map (fun g => markerOf (hits target g)) gs ++ splitLines rest.
Proof.
  induction gs as [|g gs IH]; [reflexivity|].
  cbn [map joinAll]. rewrite guessLine_marker, !string_append_assoc.
  change (nl ++ (joinAll (map (guessLine target) gs) ++ rest))%string
    with (String (ascii_of_nat 10)
                 (joinAll (map (guessLine target) gs) ++ rest)%string).
  rewrite splitLines_oneLine_nl by (destruct (hits target g); reflexivity).
  rewrite IH. reflexivity.
Qed.

(** The lines of every share text. *)
Lemma splitLines_shareGridOn (dayNumber : Z) (gs : list string)
      (target : string) (isWin isInfinite : bool) :
  splitLines (shareGridOn dayNumber gs target isWin isInfinite)
  = [ (if isInfinite then "🌍 Shapely (Infinite Mode) 📍"
       else "🌍 Shapely No. " ++ numberToString dayNumber ++ " 📍")%string;
      (if isWin
       then "Wow! 🌈 I guessed the right country in "
            ++ numberToString (arrayLength gs) ++ "/6 tries! 🏆✨"
       else "Ouch! 😅 Today's shape was a real mystery! X/6 💨☁️")%string;
      "" ]
    ++ map (fun g => markerOf (hits target g)) gs
    ++ [ ""; "Come play this game too! 🗺️⚡🚀";
         "https://geoshapely.netlify.app/" ].
Proof.
  unfold shareGridOn. rewrite fold_appendGuessLine.
  set (body := joinAll (map (guessLine target) gs)).
  set (title := (if isInfinite then "🌍 Shapely (Infinite Mode) 📍"
       else "🌍 Shapely No. " ++ numberToString dayNumber ++ " 📍")%string).
  set (outcome := (if isWin
       then "Wow! 🌈 I guessed the right country in "
            ++ numberToString (arrayLength gs) ++ "/6 tries! 🏆✨"
       else "Ouch! 😅 Today's shape was a real mystery! X/6 💨☁️")%string).
  assert (Htitle : titleLine dayNumber isInfinite = (title ++ nl)%string).
  { unfold titleLine, title. destruct isInfinite; [reflexivity|].
    rewrite !string_append_assoc. reflexivity. }
  assert (Houtcome : outcomeLine (if isWin then numberToString (arrayLength gs)
                                  else "X") isWin
                     = (outcome ++ nl ++ nl)%string).
  { unfold outcomeLine, outcome. destruct isWin; [|reflexivity].
    rewrite !string_append_assoc. reflexivity. }
  assert (H1 : oneLine title = true).
  { unfold title. destruct isInfinite; [reflexivity|].
    rewrite !oneLine_app, oneLine_numberToString. reflexivity. }
  assert (H2 : oneLine outcome = true).
  { unfold outcome. destruct isWin; [|reflexivity].
    rewrite !oneLine_app, oneLine_numberToString. reflexivity. }
  rewrite Htitle, Houtcome, !string_append_assoc.
  rewrite (splitLines_line title) by exact H1.
  rewrite (splitLines_line outcome) by exact H2.
  change (splitLines (nl ++ (body ++ footer))%string)
    with ("" :: splitLines (body ++ footer)%string).
  unfold body. rewrite splitLines_guessLines.
  reflexivity.
Qed.

(** X18. Every share text has the same shape: the title, the outcome, an
    empty line, one marker line per guess in the order of the guesses,
    an empty line and the two footer lines, that is six lines more than
    there are guesses.  The marker of a guess is the success marker
    when the guess equals the target name after lower-casing both, and
    the failure marker otherwise. *)
Theorem generateShareGrid_lines (londonDate : CalendarDate)
        (gs : list string) (target : string) (isWin isInfinite : bool) :
  splitLines (generateShareGrid londonDate gs target isWin isInfinite)
  = [ (if isInfinite then "🌍 Shapely (Infinite Mode) 📍"
       else "🌍 Shapely No. " ++ numberToString (getDayNumber londonDate)
            ++ " 📍")%string;
      (if isWin
       then "Wow! 🌈 I guessed the right country in "
            ++ numberToString (arrayLength gs) ++ "/6 tries! 🏆✨"
       else "Ouch! 😅 Today's shape was a real mystery! X/6 💨☁️")%string;
      "" ]
    ++ map (fun g => markerOf (hits target g)) gs
    ++ [ ""; "Come play this game too! 🗺️⚡🚀";
         "https://geoshapely.netlify.app/" ]
  /\ List.length
       (splitLines (generateShareGrid londonDate gs target isWin isInfinite))
     = (List.length gs + 6)%nat.
Proof.
  unfold generateShareGrid. rewrite splitLines_shareGridOn.
  split; [reflexivity|].
  rewrite !List.length_app, List.length_map. cbn [List.length]. lia.
Qed.

Lemma markerOf_injective (a b : bool) : markerOf a = markerOf b -> a = b.
Proof. destruct a, b; intros H; try reflexivity; vm_compute in H; discriminate. Qed.

Lemma map_markerOf_injective (l1 l2 : list bool) :
  map markerOf l1 = map markerOf l2 -> l1 = l2.
Proof.
  revert l2. induction l1 as [|a l1 IH]; intros [|b l2] H; try discriminate.
  - reflexivity.
  - cbn [map] in H. injection H as Hab Hrest.
    apply markerOf_injective in Hab. rewrite Hab, (IH l2 Hrest). reflexivity.
Qed.

(** X19. A share text gives away the pattern of hits and misses and nothing
    else of the guesses or the target: on one date, with one win flag
    and one mode, two rounds have the same text exactly when their
    guesses hit and miss in the same places. *)
Theorem generateShareGrid_pattern_only (londonDate : CalendarDate)
        (gs1 gs2 : list string) (target1 target2 : string)
        (isWin isInfinite : bool) :
  generateShareGrid londonDate gs1 target1 isWin isInfinite
  = generateShareGrid londonDate gs2 target2 isWin isInfinite
  <-> map (hits target1) gs1 = map (hits target2) gs2.
Proof.
  split.
  - intros Htext. apply (f_equal splitLines) in Htext.
    unfold generateShareGrid in Htext. rewrite !splitLines_shareGridOn in Htext.
    cbn [List.app] in Htext. injection Htext as _ Hrest.
    apply app_inv_tail in Hrest.
    rewrite <- (map_map (hits target1) markerOf) in Hrest.
    rewrite <- (map_map (hits target2) markerOf) in Hrest.
    apply map_markerOf_injective. exact Hrest.
  - intros Hpattern.
    assert (Hlen : arrayLength gs1 = arrayLength gs2).
    { apply (f_equal (@List.length bool)) in Hpattern.
      rewrite !List.length_map in Hpattern. unfold arrayLength. congruence. }
    assert (Hlines : map (guessLine target1) gs1 = map (guessLine target2) gs2).
    { rewrite (map_ext (guessLine target1)
                 (fun g => (markerOf (hits target1 g) ++ nl)%string))
        by (intros g; apply guessLine_marker).
      rewrite (map_ext (guessLine target2)
                 (fun g => (markerOf (hits target2 g) ++ nl)%string))
        by (intros g; apply guessLine_marker).
      rewrite <- (map_map (hits target1) (fun h => (markerOf h ++ nl)%string)).
      rewrite <- (map_map (hits target2) (fun h => (markerOf h ++ nl)%string)).
      rewrite Hpattern. reflexivity. }
    unfold generateShareGrid, shareGridOn.
    rewrite !fold_appendGuessLine, Hlen, Hlines. reflexivity.
Qed.


Lemma map_marker_misses (target : string) (l : list string) :
  Forall (fun x => hits target x = false) l ->
  map (fun g => markerOf (hits target g)) l
  = repeat failureMarker (List.length l).
Proof.
  induction 1 as [|x l Hx Hl IH]; [reflexivity|].
  cbn [map List.length repeat]. rewrite Hx, IH. reflexivity.
Qed.

(** X20. The text shared after a round played from a fresh state: its
    marker lines are failures only, closed by one success exactly when
    the round is won, and a win is announced with the number of marker
    lines out of 6. *)
Theorem shareText_played_round (londonDate : CalendarDate) (app : App)
        (key : string) (gs : list string) :
  activeState app = freshState key ->
  let played := fold_left handleGuess gs app in
  let st := activeState played in
  let misses :=
    (List.length (guesses st) - (if won st then 1 else 0))%nat in
  splitLines (shareText londonDate played)
  = [ (if isInfiniteMode app then "🌍 Shapely (Infinite Mode) 📍"
       else "🌍 Shapely No. " ++ numberToString (getDayNumber londonDate)
            ++ " 📍")%string;
      (if won st
       then "Wow! 🌈 I guessed the right country in "
            ++ numberToString (arrayLength (guesses st)) ++ "/6 tries! 🏆✨"
       else "Ouch! 😅 Today's shape was a real mystery! X/6 💨☁️")%string;
      "" ]
    ++ repeat failureMarker misses
    ++ (if won st then [successMarker] else [])
    ++ [ ""; "Come play this game too! 🗺️⚡🚀";
         "https://geoshapely.netlify.app/" ].
Proof.
  intros Hfresh played st misses.
  destruct (fold_handleGuess_frame gs app) as [Hmode [Hdaily [Hinf _]]].
  fold played in Hmode, Hdaily, Hinf.
  assert (Htarget : activeCountry played = activeCountry app).
  { unfold activeCountry. rewrite Hmode, Hdaily, Hinf. reflexivity. }
  set (target := name (activeCountry app)).
  assert (Hst : st = mkGameState key (consumed target 6 gs)
      (existsb (hits target) (consumed target 6 gs)
       || Nat.eqb (List.length (consumed target 6 gs)) 6)
      (existsb (hits target) (consumed target 6 gs))).
  { subst st played target.
    rewrite activeState_fold_handleGuess, Hfresh.
    rewrite (fold_submitGuess_consumed (activeCountry app) gs 6 (freshState key));
      try reflexivity.
    lia. }
  unfold shareText, generateShareGrid. fold st.
  rewrite splitLines_shareGridOn, Htarget, Hmode. fold target.
  f_equal.
  destruct (consumed_shape target 6 gs) as [Hwon Hlost].
  subst misses. rewrite Hst. cbn [won guesses].
  destruct (existsb (hits target) (consumed target 6 gs)) eqn:Hex.
  - destruct (Hwon eq_refl) as [front [g [Heq [Hg Hfront]]]].
    rewrite Heq, map_app, (map_marker_misses target front Hfront).
    cbn [map]. rewrite Hg, List.length_app. cbn [List.length markerOf].
    replace (List.length front + 1 - 1)%nat with (List.length front) by lia.
    rewrite <- app_assoc. reflexivity.
  - rewrite (map_marker_misses target _ (Hlost eq_refl)).
    rewrite Nat.sub_0_r. reflexivity.
Qed.


(** ** The countdown *)

Lemma padStart2_twoDigits_nat (k : nat) :
  (k < 100)%nat ->
  padStart2 (numberToString (Z.of_nat k)) = twoDigits (Z.of_nat k).
Proof.
  intros Hk.
  do 100 (destruct k as [|k]; [reflexivity|]).
  lia.
Qed.

Lemma padStart2_twoDigits (n : Z) :
  0 <= n < 100 -> padStart2 (numberToString n) = twoDigits n.
Proof.
  intros Hn. rewrite <- (Z2Nat.id n) by lia.
  apply padStart2_twoDigits_nat. lia.
Qed.

(** X21. For a difference of less than a hundred hours that is not negative,
    the countdown is the clock text [HH:MM:SS] of the whole seconds in
    it: two digits for the hours, for the minutes below 60 and for the
    seconds below 60, eight characters in all. *)
Theorem countdownText_clock (diff : Z) :
  0 <= diff < 100 * 60 * 60 * 1000 ->
  let total := diff / 1000 in
  countdownText diff
  = (twoDigits (total / 3600) ++ ":" ++ twoDigits ((total / 60) mod 60)
     ++ ":" ++ twoDigits (total mod 60))%string
  /\ countdownHours diff * 3600 + countdownMinutes diff * 60
     + countdownSeconds diff = total
  /\ 0 <= countdownMinutes diff < 60
  /\ 0 <= countdownSeconds diff < 60
  /\ String.length (countdownText diff) = 8%nat.
Proof.
  intros Hdiff total.
  assert (Hh : countdownHours diff = total / 3600).
  { unfold countdownHours, total. Z.div_mod_to_equations. lia. }
  assert (Hm : countdownMinutes diff = (total / 60) mod 60).
  { unfold countdownMinutes, total. rewrite Z.rem_mod_nonneg by lia.
    Z.div_mod_to_equations. lia. }
  assert (Hs : countdownSeconds diff = total mod 60).
  { unfold countdownSeconds, total. rewrite Z.rem_mod_nonneg by lia.
    Z.div_mod_to_equations. lia. }
  assert (Hhr : 0 <= total / 3600 < 100)
    by (unfold total; Z.div_mod_to_equations; lia).
  assert (Hmr : 0 <= (total / 60) mod 60 < 60) by (apply Z.mod_pos_bound; lia).
  assert (Hsr : 0 <= total mod 60 < 60) by (apply Z.mod_pos_bound; lia).
  assert (Htext : countdownText diff
    = (twoDigits (total / 3600) ++ ":" ++ twoDigits ((total / 60) mod 60)
       ++ ":" ++ twoDigits (total mod 60))%string).
  { unfold countdownText. rewrite Hh, Hm, Hs.
    rewrite !padStart2_twoDigits by lia. reflexivity. }
  split; [exact Htext|].
  split; [rewrite Hh, Hm, Hs; Z.div_mod_to_equations; lia|].
  split; [rewrite Hm; exact Hmr|].
  split; [rewrite Hs; exact Hsr|].
  rewrite Htext. reflexivity.
Qed.

Lemma countdownText_clock_witness :
  countdownText 45296789 = "12:34:56".
Proof.
  assert (Hdiff : 0 <= 45296789 < 100 * 60 * 60 * 1000) by lia.
  destruct (countdownText_clock 45296789 Hdiff) as [Htext _].
  rewrite Htext. reflexivity.
Defined.

(** ** The compass arrow, continued *)

Lemma octant_formula (a : Z) (b : positive) :
  octant (a # b) = ((2 * a + 45 * Z.pos b) / (90 * Z.pos b)) mod 8.
Proof.
  cbv [octant Qfloor Qdiv Qmult Qplus Qinv Qnum Qden].
  rewrite !Pos2Z.inj_mul.
  f_equal. f_equal; lia.
Qed.

Lemma div_between (n d k : Z) :
  0 < d -> k * d <= n -> n < (k + 1) * d -> n / d = k.
Proof.
  intros Hd Hlo Hhi. symmetry. apply (Z.div_unique n d k (n - k * d)); lia.
Qed.

(** X22. The comparisons sort the bearings from 0 up to 360 into eight
    octants of 45 degrees, the first centred on north: the arrow is the
    one at place [floor ((brng + 22.5) / 45) mod 8] among the eight,
    which differ from one another.  A bearing outside that range, or one
    that is not a number, gets the north arrow. *)
Theorem arrowOfBearing_octants :
  (forall q : Q,
      (0 <= q)%Q -> (q < 360 # 1)%Q ->
      arrowOfBearing (Some q) = nth (Z.to_nat (octant q)) compassArrows "")
  /\ (forall q : Q,
      (q < 0)%Q \/ (360 # 1 <= q)%Q ->
      arrowOfBearing (Some q) = nth 0 compassArrows "")
  /\ arrowOfBearing None = nth 0 compassArrows ""
  /\ NoDup compassArrows.
Proof.
  split; [|split; [|split]].
  - intros [a b] H0 H360. unfold Qle, Qlt in *. cbn [Qnum Qden] in *.
    rewrite octant_formula.
    unfold arrowOfBearing, geqNumber, ltNumber, Qle_bool. cbn [Qnum Qden].
    pose proof (Pos2Z.is_pos b) as Hb.
    repeat match goal with
           | |- context [?x <=? ?y] => destruct (Z.leb_spec x y)
           end; cbn [orb andb negb]; try lia.
    all: match goal with
         | |- _ = nth (Z.to_nat ((?n / ?d) mod 8)) _ _ =>
             first [ rewrite (div_between n d 0) by lia
                   | rewrite (div_between n d 1) by lia
                   | rewrite (div_between n d 2) by lia
                   | rewrite (div_between n d 3) by lia
                   | rewrite (div_between n d 4) by lia
                   | rewrite (div_between n d 5) by lia
                   | rewrite (div_between n d 6) by lia
                   | rewrite (div_between n d 7) by lia
                   | rewrite (div_between n d 8) by lia ]
         end; reflexivity.
  - intros [a b] Hout. unfold Qle, Qlt in Hout. cbn [Qnum Qden] in Hout.
    unfold arrowOfBearing, geqNumber, ltNumber, Qle_bool. cbn [Qnum Qden].
    pose proof (Pos2Z.is_pos b) as Hb.
    destruct (Z.leb_spec (675 * Z.pos b) (a * 2)); [reflexivity|].
    destruct (Z.leb_spec (45 * Z.pos b) (a * 2)); [|reflexivity].
    lia.
  - reflexivity.
  - unfold compassArrows.
    repeat (constructor;
            [cbn [In]; intros Hin;
             repeat (destruct Hin as [Hin|Hin];
                     [vm_compute in Hin; discriminate|]);
             exact Hin|]).
    constructor.
Qed.

Lemma arrowOfBearing_octants_witness :
  octant (90 # 1) = 2
  /\ arrowOfBearing (Some (90 # 1)) = nth 2 compassArrows "".
Proof.
  split; [reflexivity|].
  apply (proj1 arrowOfBearing_octants (90 # 1)).
  - unfold Qle. simpl. lia.
  - reflexivity.
Defined.

(** ** Changing the mode *)

(** X14. Choosing a mode stores the new filter and at once starts a fresh
    infinite round under it: when the new filter leaves a country other
    than the one on screen, the country loaded is of the chosen
    continent, difficulty and type, and is not the one on screen. *)
Theorem handleModeChange_loads_new_mode
        (COUNTRIES : list Country) (s : Session) (r : Q)
        (newFilter : GameFilter.t) :
  (0 <= r)%Q -> (r < 1)%Q ->
  let shown := activeCountry (game s) in
  let changed := handleModeChange COUNTRIES s r newFilter in
  let next := activeCountry (game changed) in
  filteredPool COUNTRIES newFilter (Some (code shown)) <> [] ->
  activeFilter changed = newFilter
  /\ isInfiniteMode (game changed) = true
  /\ activeState (game changed) = freshState "infinite"
  /\ In next COUNTRIES
  /\ (GameFilter.continent newFilter = All
      \/ continent next = GameFilter.continent newFilter)
  /\ (GameFilter.difficulty newFilter = Mixed
      \/ GameFilter.difficulty newFilter = OnlyDifficulty (difficulty next))
  /\ (GameFilter.type newFilter = AllTypes
      \/ GameFilter.type newFilter = OnlyType (type next))
  /\ (code shown <> "" -> code next <> code shown).
Proof.
  intros Hr0 Hr1 shown changed next Hpool.
  split; [reflexivity|]. split; [reflexivity|]. split; [reflexivity|].
  assert (Hin : In next (filteredPool COUNTRIES newFilter (Some (code shown)))).
  { subst next changed.
    unfold handleModeChange, startInfiniteMode, activeCountry.
    cbn [game isInfiniteMode infiniteCountry dailyCountry setActiveFilter].
    fold (activeCountry (game s)). fold shown.
    unfold getRandomCountryFiltered.
    destruct (arrayLength (filteredPool COUNTRIES newFilter (Some (code shown)))
              =? 0) eqn:H0.
    - apply Z.eqb_eq, arrayLength_zero in H0. contradiction.
    - destruct (random_draw _ _ r Hr0 Hr1 Hpool) as [x [Hx Hxin]].
      rewrite Hx. exact Hxin. }
  apply filteredPool_In in Hin.
  destruct Hin as [Hlist [Hcont [Hdiff [Htype Hex]]]].
  split; [exact Hlist|]. split; [exact Hcont|]. split; [exact Hdiff|].
  split; [exact Htype|].
  intros Hcode. apply (Hex (code shown)); [reflexivity|exact Hcode].
Qed.

Lemma handleModeChange_loads_new_mode_witness :
  continent
    (activeCountry
       (game (handleModeChange sampleCountries sampleSession (1 # 2)
                (GameFilter.mk Oceania Mixed (OnlyType Territory)))))
  = Oceania
  /\ activeCountry
       (game (handleModeChange sampleCountries sampleSession (1 # 2)
                (GameFilter.mk Oceania Mixed (OnlyType Territory))))
     = Guam.
Proof.
  split; [|reflexivity].
  assert (H0 : (0 <= 1 # 2)%Q) by (unfold Qle; simpl; lia).
  assert (H1 : (1 # 2 < 1)%Q) by reflexivity.
  destruct (handleModeChange_loads_new_mode sampleCountries sampleSession
              (1 # 2) (GameFilter.mk Oceania Mixed (OnlyType Territory)) H0 H1)
    as [_ [_ [_ [_ [Hcont _]]]]]; [discriminate|].
  destruct Hcont as [Hall|Hcont]; [discriminate|exact Hcont].
Defined.

Lemma getDailyCountry_undefined_witness :
  getDailyCountry [Guam] (mkDate 2024 2 12) = None.
Proof.
  apply (proj2 (getDailyCountry_undefined [Guam] (mkDate 2024 2 12))).
  intros c [<-|[]]. reflexivity.
Defined.

End Shapely.

(** * Instances

    The properties above at concrete inputs, with the Basic Latin
    lower-casing [toLowerCaseAscii] for [toLowerCase]. *)

Lemma handleGuess_outcome_witness :
  isFinished (activeState sampleApp) = false
  /\ (guesses (activeState (handleGuess toLowerCaseAscii sampleApp "FRANCE"))
      = ["FRANCE"]
      /\ isFinished (activeState (handleGuess toLowerCaseAscii sampleApp "FRANCE"))
         = true
      /\ won (activeState (handleGuess toLowerCaseAscii sampleApp "FRANCE"))
         = true)
  /\ sameIgnoringCase "fRaNcE" "France" = true
  /\ won (activeState (handleGuess toLowerCaseAscii sampleApp "fRaNcE")) = true
  /\ activeState
       (fold_left (handleGuess toLowerCaseAscii)
                  ["Spain"; "Germany"; "France"] sampleApp)
     = mkGameState "2024-02-12" ["Spain"; "Germany"; "France"] true true
  /\ activeState
       (fold_left (handleGuess toLowerCaseAscii)
          ["Spain"; "Germany"; "Italy"; "Brazil"; "Japan"; "Egypt"] sampleApp)
     = mkGameState "2024-02-12"
         ["Spain"; "Germany"; "Italy"; "Brazil"; "Japan"; "Egypt"] true false.
Proof.
  assert (Hfold : foldsBasicLatin toLowerCaseAscii)
    by (intros s Hs; reflexivity).
  destruct (handleGuess_outcome toLowerCaseAscii) as [Hstep [Hsix Hascii]].
  destruct (Hascii Hfold) as [Hcase [Hwon Hlost]].
  split; [reflexivity|].
  split; [|split; [reflexivity|split; [|split]]].
  - destruct (Hstep sampleApp "FRANCE" eq_refl) as [Hguesses [Hmatch _]].
    split; [exact Hguesses|].
    apply Hmatch. reflexivity.
  - apply (Hcase sampleApp "fRaNcE"); reflexivity.
  - apply (Hwon sampleApp "2024-02-12"); reflexivity.
  - apply (Hlost sampleApp "2024-02-12"); reflexivity.
Defined.

Lemma handleGuess_bounded_and_idle_witness :
  arrayLength
    (guesses
       (activeState
          (handleGuess toLowerCaseAscii
             (handleGuess toLowerCaseAscii sampleApp "Spain") "france")))
  <= 6
  /\ handleGuess toLowerCaseAscii
       (handleGuess toLowerCaseAscii
          (handleGuess toLowerCaseAscii sampleApp "Spain") "france") "Italy"
     = handleGuess toLowerCaseAscii
         (handleGuess toLowerCaseAscii sampleApp "Spain") "france".
Proof.
  split.
  - apply (proj1 (handleGuess_bounded_and_idle toLowerCaseAscii)).
    apply reach_guess. apply reach_guess. apply (reach_fresh _ "2024-02-12").
  - apply (proj2 (handleGuess_bounded_and_idle toLowerCaseAscii)). reflexivity.
Defined.

Lemma generateShareGrid_layout_witness :
  getDayNumber (mkDate 2024 2 12) = 42
  /\ sameIgnoringCase "fRANCE" "France" = true
  /\ guessLine toLowerCaseAscii "France" "fRANCE" = (successMarker ++ nl)%string
  /\ nth_error
       (splitLines
          (generateShareGrid toLowerCaseAscii (mkDate 2024 2 12)
             ["Spain"; "Germany"; "France"] "France" true false)) 5
     = Some successMarker.
Proof.
  assert (Hfold : foldsBasicLatin toLowerCaseAscii)
    by (intros s Hs; reflexivity).
  destruct (proj2 (proj2 (generateShareGrid_layout toLowerCaseAscii)) Hfold)
    as [Hcase Hexample].
  split; [reflexivity|]. split; [reflexivity|].
  split.
  - apply (Hcase "France" "fRANCE"); reflexivity.
  - destruct (Hexample (mkDate 2024 2 12) eq_refl) as [Hlines _].
    rewrite Hlines. reflexivity.
Defined.

Lemma generateShareGrid_deterministic_witness :
  getDayNumber (mkDate 2023 12 31) = getDayNumber (mkDate 2024 1 2)
  /\ generateShareGrid toLowerCaseAscii (mkDate 2023 12 31)
       ["Spain"; "France"] "France" true false
     = generateShareGrid toLowerCaseAscii (mkDate 2024 1 2)
         ["Spain"; "France"] "France" true false.
Proof.
  split; [reflexivity|].
  apply (proj1 (generateShareGrid_deterministic toLowerCaseAscii
                  (mkDate 2023 12 31) (mkDate 2024 1 2)
                  ["Spain"; "France"] "France" true false)).
  reflexivity.
Defined.

Lemma handleGuess_played_round_witness :
  activeState
    (fold_left (handleGuess toLowerCaseAscii)
               ["Spain"; "france"; "Italy"; "Peru"] sampleApp)
  = mkGameState "2024-02-12" ["Spain"; "france"] true true.
Proof.
  destruct (handleGuess_played_round toLowerCaseAscii sampleApp "2024-02-12"
              ["Spain"; "france"; "Italy"; "Peru"] eq_refl) as [Hstate _].
  rewrite Hstate. reflexivity.
Defined.

Lemma handleGuess_round_invariant_witness :
  won (activeState
         (fold_left (handleGuess toLowerCaseAscii) ["Spain"; "FRANCE"] sampleApp))
  = true
  /\ isFinished
       (activeState
          (fold_left (handleGuess toLowerCaseAscii) ["Spain"; "FRANCE"] sampleApp))
     = true.
Proof.
  split; [reflexivity|].
  apply (proj1 (handleGuess_round_invariant toLowerCaseAscii sampleApp
                  "2024-02-12" ["Spain"; "FRANCE"] eq_refl)).
  reflexivity.
Defined.

Lemma initialDailyState_resumes_witness :
  initialDailyState
    (Some (activeState
             (fold_left (handleGuess toLowerCaseAscii) ["Spain"; "Peru"] sampleApp)))
    "2024-02-12"
  = mkGameState "2024-02-12" ["Spain"; "Peru"] false false
  /\ initialDailyState
       (Some (activeState
                (fold_left (handleGuess toLowerCaseAscii) ["Spain"; "Peru"]
                           sampleApp)))
       "2024-02-13"
     = freshState "2024-02-13".
Proof.
  destruct (initialDailyState_resumes toLowerCaseAscii "2024-02-12")
    as [_ [_ [_ [_ Hplayed]]]].
  destruct (initialDailyState_resumes toLowerCaseAscii "2024-02-13")
    as [_ [_ [_ [_ Hstale]]]].
  split.
  - rewrite (Hplayed sampleApp "2024-02-12" ["Spain"; "Peru"] eq_refl).
    reflexivity.
  - rewrite (Hstale sampleApp "2024-02-12" ["Spain"; "Peru"] eq_refl).
    reflexivity.
Defined.

Lemma generateShareGrid_pattern_only_witness :
  generateShareGrid toLowerCaseAscii (mkDate 2024 2 12)
    ["Spain"; "France"] "France" true false
  = generateShareGrid toLowerCaseAscii (mkDate 2024 2 12)
      ["Chile"; "PERU"] "Peru" true false.
Proof.
  apply (proj2 (generateShareGrid_pattern_only toLowerCaseAscii
                  (mkDate 2024 2 12) ["Spain"; "France"] ["Chile"; "PERU"]
                  "France" "Peru" true false)).
  reflexivity.
Defined.

Lemma shareText_played_round_witness :
  nth_error
    (splitLines
       (shareText toLowerCaseAscii (mkDate 2024 2 12)
          (fold_left (handleGuess toLowerCaseAscii)
                     ["Spain"; "france"; "Italy"] sampleApp)))
    4
  = Some successMarker.
Proof.
  rewrite (shareText_played_round toLowerCaseAscii (mkDate 2024 2 12) sampleApp
             "2024-02-12" ["Spain"; "france"; "Italy"] eq_refl).
  reflexivity.
Defined.
